(** * Hospital management: the in-memory record store and its REST routes

    A shallow embedding of [server/storage.ts] (class [MemStorage]) and of
    the handlers registered in [server/routes.ts], with the properties the
    specification states about them.

    Modelling choices.
    - A JavaScript record (a user, an appointment, a bed, a request body) is a
      finite map from field names to values, [gmap string value]: object
      spread [{...a, ...b}] is the union in which [b] wins, and the rest
      pattern [({password, ...rest}) => rest] is [delete].  A field that is
      absent reads as [undefined], here [None].
    - A JavaScript [Map<number, T>] iterates in insertion order, and the
      list endpoints expose that order, so a collection is an association
      list; [set] on a key already present keeps the key's position.
    - The storage object is mutable; a method that writes is a function
      from a store to a result and a store, a method that only reads is a
      function of the store.
    - [Promise]s are awaited one after the other; the handlers are
      sequential and are modelled as such.
    - A [Date] is its time value, clipped to the range of [Date] where
      the language clips it.  Its local-time methods follow the time zone
      of the machine, which the source does not pin: the zone is a
      parameter, any function from instants and clock readings to offsets
      from UTC, so that days of 23 and 25 hours are covered. *)

From Stdlib Require Import ZArith List Lia Ascii String DecimalString Permutation.
From stdpp Require Import base gmap strings list fin_maps.

Local Open Scope Z_scope.
Local Open Scope string_scope.
Local Open Scope list_scope.

(** ** Values and objects *)

(** The values a field of a record can hold: the JSON scalars, and [Date]
    objects (created by [new Date(...)] in [createAppointment] and
    [createPrescription]; the time value is in milliseconds since the epoch,
    [None] for an invalid date).  Numbers are the integers: identifiers,
    counters and durations are the only numbers the server computes with. *)
Inductive value : Type :=
  | VNull
  | VBool (b : bool)
  | VNum (n : Z)
  | VStr (s : string)
  | VDate (t : option Z).

#[global] Instance value_eq_dec : EqDecision value.
Proof. solve_decision. Defined.

Abbreviation obj := (gmap string value).

(** [a === b], on the result of reading a field ([None] is [undefined]).
    Two [Date]s are two objects and are never [===]. *)
Definition strict_eq (a b : option value) : bool :=
  match a, b with
  | None, None => true
  | Some VNull, Some VNull => true
  | Some (VBool x), Some (VBool y) => Bool.eqb x y
  | Some (VNum x), Some (VNum y) => Z.eqb x y
  | Some (VStr x), Some (VStr y) => String.eqb x y
  | _, _ => false
  end.

(** [{ ...a, ...b }] *)
Definition spread (a b : obj) : obj := b ∪ a.

(** ** Strings: the operations of the bed-number template *)

Definition charAt0 (s : string) : string :=
  match s with
  | EmptyString => EmptyString
  | String c _ => String c EmptyString
  end.

Definition upper_ascii (c : ascii) : ascii :=
  let n := nat_of_ascii c in
  if ((97 <=? n)%nat && (n <=? 122)%nat)%bool then ascii_of_nat (n - 32) else c.

Fixpoint toUpperCase (s : string) : string :=
  match s with
  | EmptyString => EmptyString
  | String c r => String (upper_ascii c) (toUpperCase r)
  end.

(** [i.toString()] for an integer [i] *)
Definition toString (i : Z) : string := NilEmpty.string_of_int (Z.to_int i).

Fixpoint repeat_string (n : nat) (fill : string) : string :=
  match n with
  | O => EmptyString
  | S k => String.append fill (repeat_string k fill)
  end.

(** [s.padStart(n, fill)] for a one-character [fill] *)
Definition padStart (n : nat) (fill : string) (s : string) : string :=
  String.append (repeat_string (n - String.length s) fill) s.

(** ** [Map<number, T>] in insertion order

    The keys are the integers the counters hand out; a path parameter is
    the integer [parseInt] reads from it. *)

Module JsMap.

Definition t := list (Z * obj).

Definition empty : t := [].

Fixpoint get (k : Z) (m : t) : option obj :=
  match m with
  | [] => None
  | (k', v) :: r => if Z.eqb k' k then Some v else get k r
  end.

Fixpoint set (k : Z) (v : obj) (m : t) : t :=
  match m with
  | [] => [(k, v)]
  | (k', v') :: r => if Z.eqb k' k then (k, v) :: r else (k', v') :: set k v r
  end.

(** [m.delete(k)]: whether the key was there, and the map without it *)
Fixpoint delete (k : Z) (m : t) : bool * t :=
  match m with
  | [] => (false, [])
  | (k', v') :: r =>
      if Z.eqb k' k then (true, r)
      else let '(b, r') := delete k r in (b, (k', v') :: r')
  end.

(** [Array.from(m.values())] *)
Definition values (m : t) : list obj := map snd m.

Definition keys (m : t) : list Z := map fst m.

End JsMap.

(** ** The host: what the JavaScript runtime and the machine decide *)

(** [Date.parse] on strings, and the time zone of the machine: the
    source pins none, and [Date]'s local-time methods follow the host.
    [LocalTZA t isUTC] is ECMAScript's abstract operation of that name, the
    offset of local time from UTC in milliseconds, at the instant [t] when
    [isUTC] is true and at the local clock reading [t] when it is false
    (where the host decides what a reading that a clock change skips or
    repeats stands for). *)
Class Host : Type := {
  Date_parse : string -> option Z;
  LocalTZA : Z -> bool -> Z
}.

Definition msPerDay : Z := 86400000.

(** The time values a [Date] can hold: 8.64e15 milliseconds either side
    of the epoch. *)
Definition maxTime : Z := 8640000000000000.

(** [TimeClip]: the time value, or [NaN] when it is out of range *)
Definition TimeClip (t : Z) : option Z :=
  if Z.leb (- maxTime) t && Z.leb t maxTime then Some t else None.

Section Dates.
Context `{Host}.

(** [new Date(v)]: the time value of the new object.  A number and a
    parsed string are clipped to the range; the time value of a [Date]
    that is copied was clipped when that [Date] was made. *)
Definition newDate (v : option value) : option Z :=
  match v with
  | None => None
  | Some VNull => Some 0
  | Some (VBool b) => Some (if b then 1 else 0)
  | Some (VNum n) => TimeClip n
  | Some (VStr s) =>
      match Date_parse s with
      | Some t => TimeClip t
      | None => None
      end
  | Some (VDate t) => t
  end.

(** ECMAScript's [LocalTime], [UTC], [Day] and [TimeWithinDay] *)
Definition LocalTime (t : Z) : Z := t + LocalTZA t true.
Definition UTC (l : Z) : Z := l - LocalTZA l false.
Definition Day (l : Z) : Z := l / msPerDay.
Definition TimeWithinDay (l : Z) : Z := l mod msPerDay.

(** [d.setHours(0, 0, 0, 0)]: the local day of [d] at the clock reading
    00:00:00.000, [TimeClip(UTC(MakeDate(Day(LocalTime(t)), 0)))] *)
Definition setHours0 (d : option Z) : option Z :=
  match d with
  | None => None
  | Some t => TimeClip (UTC (Day (LocalTime t) * msPerDay))
  end.

(** [d.setDate(d.getDate() + 1)]: the next local calendar day at the same
    clock reading; the day that [MakeDay] gives for the year and month of
    [t] and the date after that of [t] is the day after [Day(LocalTime(t))] *)
Definition setDateNext (d : option Z) : option Z :=
  match d with
  | None => None
  | Some t =>
      TimeClip (UTC ((Day (LocalTime t) + 1) * msPerDay + TimeWithinDay (LocalTime t)))
  end.

(** [a >= b] and [a < b] on two [Date]s: their time values are compared,
    and a comparison with [NaN] is false *)
Definition date_ge (a b : option Z) : bool :=
  match a, b with
  | Some x, Some y => Z.leb y x
  | _, _ => false
  end.

Definition date_lt (a b : option Z) : bool :=
  match a, b with
  | Some x, Some y => Z.ltb x y
  | _, _ => false
  end.

End Dates.

(** ** The store *)

Record MemStorage : Type := mkStore {
  users : JsMap.t;
  appointments : JsMap.t;
  beds : JsMap.t;
  prescriptions : JsMap.t;
  doctorSchedules : JsMap.t;
  userIdCounter : Z;
  appointmentIdCounter : Z;
  bedIdCounter : Z;
  prescriptionIdCounter : Z;
  scheduleIdCounter : Z
}.

Definition set_users (m : JsMap.t) (c : Z) (st : MemStorage) : MemStorage :=
  mkStore m (appointments st) (beds st) (prescriptions st) (doctorSchedules st)
    c (appointmentIdCounter st) (bedIdCounter st)
    (prescriptionIdCounter st) (scheduleIdCounter st).

Definition set_appointments (m : JsMap.t) (c : Z) (st : MemStorage) : MemStorage :=
  mkStore (users st) m (beds st) (prescriptions st) (doctorSchedules st)
    (userIdCounter st) c (bedIdCounter st)
    (prescriptionIdCounter st) (scheduleIdCounter st).

Definition set_beds (m : JsMap.t) (c : Z) (st : MemStorage) : MemStorage :=
  mkStore (users st) (appointments st) m (prescriptions st) (doctorSchedules st)
    (userIdCounter st) (appointmentIdCounter st) c
    (prescriptionIdCounter st) (scheduleIdCounter st).

Definition set_prescriptions (m : JsMap.t) (c : Z) (st : MemStorage) : MemStorage :=
  mkStore (users st) (appointments st) (beds st) m (doctorSchedules st)
    (userIdCounter st) (appointmentIdCounter st) (bedIdCounter st)
    c (scheduleIdCounter st).

Definition set_doctorSchedules (m : JsMap.t) (c : Z) (st : MemStorage) : MemStorage :=
  mkStore (users st) (appointments st) (beds st) (prescriptions st) m
    (userIdCounter st) (appointmentIdCounter st) (bedIdCounter st)
    (prescriptionIdCounter st) c.

(** The fields the constructor sets before it calls [initializeData]. *)
Definition emptyStore : MemStorage :=
  mkStore JsMap.empty JsMap.empty JsMap.empty JsMap.empty JsMap.empty 1 1 1 1 1.

(** [Array.from(m.values()).filter(x => x.f === v)].  The value [v] a
    scan compares with is a JavaScript value: the caller's id, a parsed
    path parameter, or the [id] read from a user record ([undefined] if
    the record has none). *)
Definition filter_field (f : string) (v : option value) (m : JsMap.t) : list obj :=
  List.filter (fun x => strict_eq (x !! f) v) (JsMap.values m).

(** *** Users *)

Definition getUser (id : Z) (st : MemStorage) : option obj :=
  JsMap.get id (users st).

Definition getUserByUsername (username : string) (st : MemStorage) : option obj :=
  List.find (fun user : obj => strict_eq (user !! "username") (Some (VStr username)))
    (JsMap.values (users st)).

Definition getUsersByRole (role : string) (st : MemStorage) : list obj :=
  filter_field "role" (Some (VStr role)) (users st).

Definition createUser (insertUser : obj) (st : MemStorage) : obj * MemStorage :=
  let id := userIdCounter st in
  let user := <[ "id" := VNum id ]> insertUser in
  (user, set_users (JsMap.set id user (users st)) (id + 1) st).

(** *** Appointments *)

Definition getAppointment (id : Z) (st : MemStorage) : option obj :=
  JsMap.get id (appointments st).

Definition getAppointmentsByPatient (patientId : option value) (st : MemStorage) : list obj :=
  filter_field "patientId" patientId (appointments st).

Definition getAppointmentsByDoctor (doctorId : option value) (st : MemStorage) : list obj :=
  filter_field "doctorId" doctorId (appointments st).

Definition updateAppointment (id : Z) (appointmentUpdate : obj) (st : MemStorage)
  : option obj * MemStorage :=
  match JsMap.get id (appointments st) with
  | None => (None, st)
  | Some appointment =>
      let updatedAppointment := spread appointment appointmentUpdate in
      (Some updatedAppointment,
       set_appointments (JsMap.set id updatedAppointment (appointments st)) (appointmentIdCounter st) st)
  end.

Definition deleteAppointment (id : Z) (st : MemStorage) : bool * MemStorage :=
  let '(b, m) := JsMap.delete id (appointments st) in
  (b, set_appointments m (appointmentIdCounter st) st).

Section AppointmentDates.
Context `{Host}.

Definition getAppointmentsByDate (date : option Z) (st : MemStorage) : list obj :=
  let targetDate := setHours0 date in
  let nextDay := setDateNext targetDate in
  List.filter
    (fun appointment =>
       let appDate := newDate (appointment !! "appointmentDate") in
       date_ge appDate targetDate && date_lt appDate nextDay)
    (JsMap.values (appointments st)).

Definition createAppointment (insertAppointment : obj) (st : MemStorage)
  : obj * MemStorage :=
  let id := appointmentIdCounter st in
  let appointment :=
    <[ "appointmentDate" := VDate (newDate (insertAppointment !! "appointmentDate")) ]>
      (<[ "id" := VNum id ]> insertAppointment) in
  (appointment, set_appointments (JsMap.set id appointment (appointments st)) (id + 1) st).

End AppointmentDates.

(** *** Beds *)

Definition getBed (id : Z) (st : MemStorage) : option obj :=
  JsMap.get id (beds st).

Definition getBedByNumber (bedNumber : string) (st : MemStorage) : option obj :=
  List.find (fun bed : obj => strict_eq (bed !! "bedNumber") (Some (VStr bedNumber)))
    (JsMap.values (beds st)).

Definition getBedsByWard (ward : string) (st : MemStorage) : list obj :=
  filter_field "ward" (Some (VStr ward)) (beds st).

Definition getBedsByStatus (status : string) (st : MemStorage) : list obj :=
  filter_field "status" (Some (VStr status)) (beds st).

Definition getAllBeds (st : MemStorage) : list obj :=
  JsMap.values (beds st).

Definition createBed (insertBed : obj) (st : MemStorage) : obj * MemStorage :=
  let id := bedIdCounter st in
  let bed := <[ "id" := VNum id ]> insertBed in
  (bed, set_beds (JsMap.set id bed (beds st)) (id + 1) st).

Definition updateBed (id : Z) (bedUpdate : obj) (st : MemStorage)
  : option obj * MemStorage :=
  match JsMap.get id (beds st) with
  | None => (None, st)
  | Some bed =>
      let updatedBed := spread bed bedUpdate in
      (Some updatedBed,
       set_beds (JsMap.set id updatedBed (beds st)) (bedIdCounter st) st)
  end.

(** *** Prescriptions *)

Definition getPrescription (id : Z) (st : MemStorage) : option obj :=
  JsMap.get id (prescriptions st).

Definition getPrescriptionsByPatient (patientId : option value) (st : MemStorage) : list obj :=
  filter_field "patientId" patientId (prescriptions st).

Definition getPrescriptionsByDoctor (doctorId : option value) (st : MemStorage) : list obj :=
  filter_field "doctorId" doctorId (prescriptions st).

Section PrescriptionDates.
Context `{Host}.

Definition createPrescription (insertPrescription : obj) (st : MemStorage)
  : obj * MemStorage :=
  let id := prescriptionIdCounter st in
  let prescription :=
    <[ "prescriptionDate" := VDate (newDate (insertPrescription !! "prescriptionDate")) ]>
      (<[ "id" := VNum id ]> insertPrescription) in
  (prescription,
   set_prescriptions (JsMap.set id prescription (prescriptions st)) (id + 1) st).

End PrescriptionDates.

Definition updatePrescription (id : Z) (prescriptionUpdate : obj) (st : MemStorage)
  : option obj * MemStorage :=
  match JsMap.get id (prescriptions st) with
  | None => (None, st)
  | Some prescription =>
      let updatedPrescription := spread prescription prescriptionUpdate in
      (Some updatedPrescription,
       set_prescriptions (JsMap.set id updatedPrescription (prescriptions st)) (prescriptionIdCounter st) st)
  end.

(** *** Doctor schedules *)

Definition getDoctorSchedule (id : Z) (st : MemStorage) : option obj :=
  JsMap.get id (doctorSchedules st).

Definition getDoctorSchedulesByDoctor (doctorId : option value) (st : MemStorage) : list obj :=
  filter_field "doctorId" doctorId (doctorSchedules st).

Definition createDoctorSchedule (insertSchedule : obj) (st : MemStorage) : obj * MemStorage :=
  let id := scheduleIdCounter st in
  let schedule := <[ "id" := VNum id ]> insertSchedule in
  (schedule,
   set_doctorSchedules (JsMap.set id schedule (doctorSchedules st)) (id + 1) st).

Definition updateDoctorSchedule (id : Z) (scheduleUpdate : obj) (st : MemStorage)
  : option obj * MemStorage :=
  match JsMap.get id (doctorSchedules st) with
  | None => (None, st)
  | Some schedule =>
      let updatedSchedule := spread schedule scheduleUpdate in
      (Some updatedSchedule,
       set_doctorSchedules (JsMap.set id updatedSchedule (doctorSchedules st)) (scheduleIdCounter st) st)
  end.

Definition deleteDoctorSchedule (id : Z) (st : MemStorage) : bool * MemStorage :=
  let '(b, m) := JsMap.delete id (doctorSchedules st) in
  (b, set_doctorSchedules m (scheduleIdCounter st) st).

(** *** Seed data *)

Definition wards : list string := ["general"; "icu"; "pediatric"; "maternity"].

(** The object literal passed to [createBed] in the loop body, for the loop
    index [i]. *)
Definition seedBed (i : Z) : obj :=
  let ward := nth (Z.to_nat (i mod Z.of_nat (length wards))) wards "" in
  let wardPrefix := toUpperCase (charAt0 ward) in
  {[ "bedNumber" := VStr (String.append wardPrefix (padStart 2 "0" (toString i)));
     "ward" := VStr ward;
     "status" := VStr "available";
     "patientId" := VNull ]}.

(** [for (let i = 1; i <= 20; i++) this.createBed({...})] *)
Definition initializeData (st : MemStorage) : MemStorage :=
  fold_left (fun s i => snd (createBed (seedBed i) s)) (seqZ 1 20) st.

(** [new MemStorage()] *)
Definition newMemStorage : MemStorage := initializeData emptyStore.

(** ** The HTTP layer *)

(** [req.user] of an authenticated request: the identity the session
    carries.  The routes read its [id] and its [role] only. *)
Record caller : Type := mkCaller {
  caller_id : Z;
  caller_role : string
}.

(** What a handler hands to [res.json] (before serialisation), or [end()]. *)
Inductive json : Type :=
  | JArr (l : list obj)
  | JObj (o : obj)
  | JMessage (message : string)
  | JUndefined
  | JEnd.

Record response : Type := mkResponse {
  status : Z;
  body : json
}.

Definition handler : Type := MemStorage -> response * MemStorage.

Definition reply (code : Z) (b : json) : handler :=
  fun st => (mkResponse code b, st).

Definition json_of_option (o : option obj) : json :=
  match o with
  | Some r => JObj r
  | None => JUndefined
  end.

(** The middleware; [None] is a request for which [req.isAuthenticated()]
    is false. *)
Definition ensureAuthenticated (user : option caller) (next : caller -> handler) : handler :=
  match user with
  | Some u => next u
  | None => reply 401 (JMessage "Unauthorized")
  end.

Definition includes (roles : list string) (role : string) : bool :=
  existsb (String.eqb role) roles.

Definition checkRole (roles : list string) (user : option caller)
    (next : caller -> handler) : handler :=
  match user with
  | Some u =>
      if includes roles (caller_role u) then next u
      else reply 403 (JMessage "Forbidden")
  | None => reply 403 (JMessage "Forbidden")
  end.

(** The validation schemas of [shared/schema.ts], as parsers: the parsed
    data, or the message [fromZodError] derives from the [ZodError] that
    [parse] throws.  The parsers are zod's and are left open. *)
Class Schemas : Type := {
  insertAppointmentSchema : obj -> obj + string;
  insertBedSchema : obj -> obj + string;
  insertPrescriptionSchema : obj -> obj + string;
  insertDoctorScheduleSchema : obj -> obj + string;
  (** a [patientId] that the appointment schema accepts is returned as it
      was submitted: the schema checks the number and does not change it *)
  insertAppointmentSchema_patientId :
    forall reqBody parsed : obj,
      insertAppointmentSchema reqBody = inl parsed ->
      parsed !! "patientId" = reqBody !! "patientId"
}.

(** The parsed data, or the thrown [{ status: 400, message }]. *)
Definition handleValidation (schema : obj -> obj + string) (data : obj)
  : obj + (Z * string) :=
  match schema data with
  | inl parsed => inl parsed
  | inr message => inr (400, message)
  end.

(** The [catch] block of the handlers, for the one error that is thrown. *)
Definition catch_error (e : Z * string) : handler :=
  reply (fst e) (JMessage (snd e)).

Definition without_password (u : obj) : obj := delete "password" u.

Definition is_role (u : caller) (role : string) : bool :=
  String.eqb (caller_role u) role.

Definition id_of (u : caller) : option value := Some (VNum (caller_id u)).

(** The loop of the list endpoints for the other roles: one store call per
    doctor, each result pushed onto the array. *)
Definition fan_out (by_doctor : option value -> MemStorage -> list obj)
    (doctorIds : list (option value)) (st : MemStorage) : list obj :=
  fold_left (fun acc doctorId => acc ++ by_doctor doctorId st) doctorIds [].

Module Routes.

(** [GET /api/users/doctors] *)
Definition get_users_doctors (user : option caller) : handler :=
  ensureAuthenticated user (fun _ st =>
    let doctors := getUsersByRole "doctor" st in
    reply 200 (JArr (map without_password doctors)) st).

(** [GET /api/users/patients] *)
Definition get_users_patients (user : option caller) : handler :=
  ensureAuthenticated user (fun _ =>
  checkRole ["doctor"; "nurse"] user (fun _ st =>
    let patients := getUsersByRole "patient" st in
    reply 200 (JArr (map without_password patients)) st)).

(** [GET /api/appointments] *)
Definition get_appointments (user : option caller) : handler :=
  ensureAuthenticated user (fun u st =>
    let appointments :=
      if is_role u "patient" then getAppointmentsByPatient (id_of u) st
      else if is_role u "doctor" then getAppointmentsByDoctor (id_of u) st
      else
        let allDoctors := getUsersByRole "doctor" st in
        let doctorIds := map (fun doctor => doctor !! "id") allDoctors in
        fan_out getAppointmentsByDoctor doctorIds st in
    reply 200 (JArr appointments) st).

(** [PUT /api/appointments/:id]; [id] is [parseInt(req.params.id)] *)
Definition put_appointment (user : option caller) (id : Z) (reqBody : obj) : handler :=
  ensureAuthenticated user (fun u st =>
    match getAppointment id st with
    | None => reply 404 (JMessage "Appointment not found") st
    | Some appointment =>
        if is_role u "patient"
           && negb (strict_eq (appointment !! "patientId") (id_of u))
        then reply 403 (JMessage "You can only modify your own appointments") st
        else
          let '(updatedAppointment, st') := updateAppointment id reqBody st in
          reply 200 (json_of_option updatedAppointment) st'
    end).

(** [DELETE /api/appointments/:id] *)
Definition delete_appointment (user : option caller) (id : Z) : handler :=
  ensureAuthenticated user (fun u st =>
    match getAppointment id st with
    | None => reply 404 (JMessage "Appointment not found") st
    | Some appointment =>
        if is_role u "patient"
           && negb (strict_eq (appointment !! "patientId") (id_of u))
        then reply 403 (JMessage "You can only delete your own appointments") st
        else
          let '(success, st') := deleteAppointment id st in
          if success then reply 204 JEnd st'
          else reply 404 (JMessage "Appointment not found") st'
    end).

(** [GET /api/beds] *)
Definition get_beds (user : option caller) : handler :=
  ensureAuthenticated user (fun _ st => reply 200 (JArr (getAllBeds st)) st).

(** [GET /api/beds/ward/:ward] *)
Definition get_beds_ward (user : option caller) (ward : string) : handler :=
  ensureAuthenticated user (fun _ st => reply 200 (JArr (getBedsByWard ward st)) st).

(** [GET /api/beds/status/:status] *)
Definition get_beds_status (user : option caller) (status : string) : handler :=
  ensureAuthenticated user (fun _ st => reply 200 (JArr (getBedsByStatus status st)) st).

(** [PUT /api/beds/:id] *)
Definition put_bed (user : option caller) (id : Z) (reqBody : obj) : handler :=
  ensureAuthenticated user (fun _ =>
  checkRole ["doctor"; "nurse"] user (fun _ st =>
    match getBed id st with
    | None => reply 404 (JMessage "Bed not found") st
    | Some _ =>
        let '(updatedBed, st') := updateBed id reqBody st in
        reply 200 (json_of_option updatedBed) st'
    end)).

(** [GET /api/prescriptions] *)
Definition get_prescriptions (user : option caller) : handler :=
  ensureAuthenticated user (fun u st =>
    let prescriptions :=
      if is_role u "patient" then getPrescriptionsByPatient (id_of u) st
      else if is_role u "doctor" then getPrescriptionsByDoctor (id_of u) st
      else
        let allDoctors := getUsersByRole "doctor" st in
        let doctorIds := map (fun doctor => doctor !! "id") allDoctors in
        fan_out getPrescriptionsByDoctor doctorIds st in
    reply 200 (JArr prescriptions) st).

(** [GET /api/prescriptions/:id] *)
Definition get_prescription (user : option caller) (id : Z) : handler :=
  ensureAuthenticated user (fun u st =>
    match getPrescription id st with
    | None => reply 404 (JMessage "Prescription not found") st
    | Some prescription =>
        if is_role u "patient"
           && negb (strict_eq (prescription !! "patientId") (id_of u))
        then reply 403 (JMessage "You can only view your own prescriptions") st
        else reply 200 (JObj prescription) st
    end).

(** [PUT /api/prescriptions/:id] *)
Definition put_prescription (user : option caller) (id : Z) (reqBody : obj) : handler :=
  ensureAuthenticated user (fun _ =>
  checkRole ["doctor"] user (fun u st =>
    match getPrescription id st with
    | None => reply 404 (JMessage "Prescription not found") st
    | Some prescription =>
        if negb (strict_eq (prescription !! "doctorId") (id_of u))
        then reply 403 (JMessage "You can only modify your own prescriptions") st
        else
          let '(updatedPrescription, st') := updatePrescription id reqBody st in
          reply 200 (json_of_option updatedPrescription) st'
    end)).

(** [GET /api/schedules] *)
Definition get_schedules (user : option caller) : handler :=
  ensureAuthenticated user (fun u st =>
    if is_role u "doctor"
    then reply 200 (JArr (getDoctorSchedulesByDoctor (id_of u) st)) st
    else
      let doctors := getUsersByRole "doctor" st in
      let allSchedules :=
        fold_left
          (fun acc doctor => acc ++ getDoctorSchedulesByDoctor (doctor !! "id") st)
          doctors [] in
      reply 200 (JArr allSchedules) st).

(** [GET /api/schedules/doctor/:id] *)
Definition get_schedules_doctor (user : option caller) (id : Z) : handler :=
  ensureAuthenticated user (fun _ st =>
    reply 200 (JArr (getDoctorSchedulesByDoctor (Some (VNum id)) st)) st).

(** [PUT /api/schedules/:id] *)
Definition put_schedule (user : option caller) (id : Z) (reqBody : obj) : handler :=
  ensureAuthenticated user (fun _ =>
  checkRole ["doctor"; "nurse"] user (fun u st =>
    match getDoctorSchedule id st with
    | None => reply 404 (JMessage "Schedule not found") st
    | Some schedule =>
        if is_role u "doctor"
           && negb (strict_eq (schedule !! "doctorId") (id_of u))
        then reply 403 (JMessage "You can only update your own schedules") st
        else
          let '(updatedSchedule, st') := updateDoctorSchedule id reqBody st in
          reply 200 (json_of_option updatedSchedule) st'
    end)).

(** [DELETE /api/schedules/:id] *)
Definition delete_schedule (user : option caller) (id : Z) : handler :=
  ensureAuthenticated user (fun _ =>
  checkRole ["doctor"; "nurse"] user (fun u st =>
    match getDoctorSchedule id st with
    | None => reply 404 (JMessage "Schedule not found") st
    | Some schedule =>
        if is_role u "doctor"
           && negb (strict_eq (schedule !! "doctorId") (id_of u))
        then reply 403 (JMessage "You can only delete your own schedules") st
        else
          let '(success, st') := deleteDoctorSchedule id st in
          if success then reply 204 JEnd st'
          else reply 404 (JMessage "Schedule not found") st'
    end)).

(** The handlers that parse dates or validate a body. *)
Section WithHost.
Context `{Host} `{Schemas}.

(** [GET /api/appointments/date/:date] *)
Definition get_appointments_date (user : option caller) (dateParam : string) : handler :=
  ensureAuthenticated user (fun _ st =>
    let date := newDate (Some (VStr dateParam)) in
    match date with
    | None => reply 400 (JMessage "Invalid date format") st
    | Some _ => reply 200 (JArr (getAppointmentsByDate date st)) st
    end).

(** [POST /api/appointments] *)
Definition post_appointment (user : option caller) (reqBody : obj) : handler :=
  ensureAuthenticated user (fun u st =>
    match handleValidation insertAppointmentSchema reqBody with
    | inr error => catch_error error st
    | inl appointmentData =>
        if is_role u "patient"
           && negb (strict_eq (appointmentData !! "patientId") (id_of u))
        then reply 403 (JMessage "You can only create appointments for yourself") st
        else
          let '(appointment, st') := createAppointment appointmentData st in
          reply 201 (JObj appointment) st'
    end).

(** [POST /api/beds] *)
Definition post_bed (user : option caller) (reqBody : obj) : handler :=
  ensureAuthenticated user (fun _ =>
  checkRole ["doctor"; "nurse"] user (fun _ st =>
    match handleValidation insertBedSchema reqBody with
    | inr error => catch_error error st
    | inl bedData =>
        let '(bed, st') := createBed bedData st in
        reply 201 (JObj bed) st'
    end)).

(** [POST /api/prescriptions] *)
Definition post_prescription (user : option caller) (reqBody : obj) : handler :=
  ensureAuthenticated user (fun _ =>
  checkRole ["doctor"] user (fun u st =>
    match handleValidation insertPrescriptionSchema reqBody with
    | inr error => catch_error error st
    | inl prescriptionData =>
        if negb (strict_eq (prescriptionData !! "doctorId") (id_of u))
        then reply 403 (JMessage "You can only create prescriptions as yourself") st
        else
          let '(prescription, st') := createPrescription prescriptionData st in
          reply 201 (JObj prescription) st'
    end)).

(** [POST /api/schedules] *)
Definition post_schedule (user : option caller) (reqBody : obj) : handler :=
  ensureAuthenticated user (fun _ =>
  checkRole ["doctor"; "nurse"] user (fun u st =>
    match handleValidation insertDoctorScheduleSchema reqBody with
    | inr error => catch_error error st
    | inl scheduleData =>
        if is_role u "doctor"
           && negb (strict_eq (scheduleData !! "doctorId") (id_of u))
        then reply 403 (JMessage "You can only create schedules for yourself") st
        else
          let '(schedule, st') := createDoctorSchedule scheduleData st in
          reply 201 (JObj schedule) st'
    end)).

End WithHost.

End Routes.

(** * The vocabulary of the properties *)

(** What the specification says of an [update] method with its [get]:
    on a stored record the merge is stored and returned, on a missing key
    nothing is returned and the whole store is as it was. *)
Definition merges_or_not_found
    (get : Z -> MemStorage -> option obj)
    (update : Z -> obj -> MemStorage -> option obj * MemStorage) : Prop :=
  forall (st : MemStorage) (k : Z) (p : obj),
    match get k st with
    | Some r =>
        exists r' st',
          update k p st = (Some r', st')
          /\ get k st' = Some r'
          /\ (forall f v, p !! f = Some v -> r' !! f = Some v)
          /\ (forall f, p !! f = None -> r' !! f = r !! f)
    | None => update k p st = (None, st)
    end.

(** [create] followed by [get] of the assigned identifier, for insert
    payloads [x] of the method's input type ([typed]). *)
Definition creates_then_gets
    (create : obj -> MemStorage -> obj * MemStorage)
    (get : Z -> MemStorage -> option obj)
    (typed : obj -> Prop) : Prop :=
  forall (x : obj) (st : MemStorage),
    typed x ->
    exists n,
      fst (create x st) !! "id" = Some (VNum n)
      /\ get n (snd (create x st)) = Some (fst (create x st))
      /\ fst (create x st) = spread x {[ "id" := VNum n ]}.

(** [InsertUser], [InsertBed] and [InsertDoctorSchedule] constrain nothing
    that the methods depend on. *)
Definition any_payload (x : obj) : Prop := True.

(** [InsertAppointment] and [InsertPrescription] declare their timestamp
    a [Date]. *)
Definition date_field (f : string) (x : obj) : Prop :=
  exists t, x !! f = Some (VDate t).

(** An update whose payload has no [id] leaves a record that carried its
    key as [id] carrying it still. *)
Definition keeps_id
    (get : Z -> MemStorage -> option obj)
    (update : Z -> obj -> MemStorage -> option obj * MemStorage) : Prop :=
  forall (st : MemStorage) (k : Z) (p r : obj),
    get k st = Some r ->
    r !! "id" = Some (VNum k) ->
    p !! "id" = None ->
    exists r',
      fst (update k p st) = Some r'
      /\ get k (snd (update k p st)) = Some r'
      /\ r' !! "id" = Some (VNum k).

(** The response lists the stored users of a role, each without its
    password and with every other field as stored. *)
Definition lists_without_password (role : string) (resp : response) (st : MemStorage) : Prop :=
  exists l,
    resp = mkResponse 200 (JArr l)
    /\ List.Forall2
         (fun (o stored : obj) =>
            o !! "password" = None
            /\ forall f, f <> "password" -> o !! f = stored !! f)
         l (getUsersByRole role st).

(** The users of a store that the storage methods built: a record is
    stored under its own [id], below the counter, and no key occurs
    twice. *)
Definition users_wf (st : MemStorage) : Prop :=
  List.NoDup (JsMap.keys (users st))
  /\ List.Forall
       (fun e : Z * obj => snd e !! "id" = Some (VNum (fst e)) /\ fst e < userIdCounter st)
       (users st).

Section Vocabulary.
Context `{Host}.

(** The stores the program can be in: the seed store, and what the
    writing methods make of a store it can be in. *)
Inductive Reachable : MemStorage -> Prop :=
  | R_new : Reachable newMemStorage
  | R_createUser x st : Reachable st -> Reachable (snd (createUser x st))
  | R_createAppointment x st : Reachable st -> Reachable (snd (createAppointment x st))
  | R_updateAppointment k p st : Reachable st -> Reachable (snd (updateAppointment k p st))
  | R_deleteAppointment k st : Reachable st -> Reachable (snd (deleteAppointment k st))
  | R_createBed x st : Reachable st -> Reachable (snd (createBed x st))
  | R_updateBed k p st : Reachable st -> Reachable (snd (updateBed k p st))
  | R_createPrescription x st : Reachable st -> Reachable (snd (createPrescription x st))
  | R_updatePrescription k p st : Reachable st -> Reachable (snd (updatePrescription k p st))
  | R_createDoctorSchedule x st :
      Reachable st -> Reachable (snd (createDoctorSchedule x st))
  | R_updateDoctorSchedule k p st :
      Reachable st -> Reachable (snd (updateDoctorSchedule k p st))
  | R_deleteDoctorSchedule k st :
      Reachable st -> Reachable (snd (deleteDoctorSchedule k st)).

Definition preserves_Reachable (h : handler) : Prop :=
  forall st, Reachable st -> Reachable (snd (h st)).

(** The claim as the specification words it: every entry of the
    schedules collection is in the response. *)
Definition omits_no_schedule (resp : response) (st : MemStorage) : Prop :=
  exists l,
    body resp = JArr l
    /\ forall s, In s (JsMap.values (doctorSchedules st)) -> In s l.

(** A time value within the range of [Date]. *)
Definition in_range (t : Z) : Prop := - maxTime <= t <= maxTime.

(** The instant at which the local day [D] (counted from the epoch on the
    local clock) starts: its clock reading 00:00:00.000, as the host
    places it. *)
Definition localMidnight (D : Z) : Z := UTC (D * msPerDay).

(** The local day of the instant [t]. *)
Definition localDay (t : Z) : Z := Day (LocalTime t).

(** One calendar day after the instant [t]: the instant at which the
    local clock shows the reading it shows at [t], on the next local
    day. *)
Definition dayAfter (t : Z) : Z := UTC (LocalTime t + msPerDay).

(** A host whose offset from UTC never changes. *)
Definition fixed_offset (off : Z) : Prop := forall t isUTC, LocalTZA t isUTC = off.

(** [new Date(appointment.appointmentDate)], the time the filter reads *)
Definition appointmentTime (a : obj) : option Z := newDate (a !! "appointmentDate").

(** The filter of [getAppointmentsByDate], as an interval test *)
Definition in_window (start next : Z) (a : obj) : bool :=
  match appointmentTime a with
  | Some t => Z.leb start t && Z.ltb t next
  | None => false
  end.

(** The claim as the specification words it, the day being 24 hours:
    [getAppointmentsByDate] of a date at the instant [t0] returns the
    stored appointments from the start of the local day of [t0] to 24
    hours later. *)
Definition one_day_window (st : MemStorage) (t0 : Z) : Prop :=
  forall a,
    In a (getAppointmentsByDate (Some t0) st)
    <-> In a (JsMap.values (appointments st))
        /\ exists t,
             appointmentTime a = Some t
             /\ localMidnight (localDay t0) <= t < localMidnight (localDay t0) + msPerDay.

End Vocabulary.

Definition field_list (f : string) (l : list obj) : list (option value) :=
  map (fun o : obj => o !! f) l.

Definition strings (l : list string) : list (option value) :=
  map (fun s => Some (VStr s)) l.

(** The order the specification gives: general first. *)
Definition claimed_wards : list string :=
  concat (repeat ["general"; "icu"; "pediatric"; "maternity"] 5).

Definition claimed_bedNumbers : list string :=
  ["G01"; "I02"; "P03"; "M04"; "G05"; "I06"; "P07"; "M08"; "G09"; "I10";
   "P11"; "M12"; "G13"; "I14"; "P15"; "M16"; "G17"; "I18"; "P19"; "M20"].

(** The order of the loop: the index starts at 1, so the first ward is
    [wards[1]]. *)
Definition seeded_wards : list string :=
  concat (repeat ["icu"; "pediatric"; "maternity"; "general"] 5).

Definition seeded_bedNumbers : list string :=
  ["I01"; "P02"; "M03"; "G04"; "I05"; "P06"; "M07"; "G08"; "I09"; "P10";
   "M11"; "G12"; "I13"; "P14"; "M15"; "G16"; "I17"; "P18"; "M19"; "G20"].

(** * The vocabulary of the further properties *)

(** A collection nothing is deleted from: its keys are 1, 2, ..., [c - 1]
    in this order, [c] being its counter. *)
Definition dense (c : Z) (m : JsMap.t) : Prop :=
  1 <= c /\ JsMap.keys m = seqZ 1 (c - 1).

(** A collection with deletions: its keys are distinct and were handed
    out by its counter [c]. *)
Definition sparse (c : Z) (m : JsMap.t) : Prop :=
  1 <= c
  /\ List.NoDup (JsMap.keys m)
  /\ List.Forall (fun k => 1 <= k < c) (JsMap.keys m).

(** The keys of the five collections against the five counters. *)
Definition store_wf (st : MemStorage) : Prop :=
  dense (userIdCounter st) (users st)
  /\ sparse (appointmentIdCounter st) (appointments st)
  /\ (dense (bedIdCounter st) (beds st) /\ 21 <= bedIdCounter st)
  /\ dense (prescriptionIdCounter st) (prescriptions st)
  /\ sparse (scheduleIdCounter st) (doctorSchedules st).

Section FurtherVocabulary.
Context `{Host}.

(** A [delete] method with its [get], in a store the program can be in:
    the answer says whether the record was there, the record is gone
    afterwards, every other record stays, and deleting what is not
    there changes nothing. *)
Definition deletes
    (get : Z -> MemStorage -> option obj)
    (delete : Z -> MemStorage -> bool * MemStorage) : Prop :=
  forall (st : MemStorage) (k : Z),
    Reachable st ->
    fst (delete k st) = match get k st with Some _ => true | None => false end
    /\ get k (snd (delete k st)) = None
    /\ (forall k', k' <> k -> get k' (snd (delete k st)) = get k' st)
    /\ (get k st = None -> delete k st = (false, st)).


End FurtherVocabulary.

(** An [update] method on a stored record: the keys of the collection and
    their order stay, and so does every other record. *)
Definition updates_in_place
    (coll : MemStorage -> JsMap.t)
    (get : Z -> MemStorage -> option obj)
    (update : Z -> obj -> MemStorage -> option obj * MemStorage) : Prop :=
  forall (st : MemStorage) (k : Z) (p r : obj),
    get k st = Some r ->
    JsMap.keys (coll (snd (update k p st))) = JsMap.keys (coll st)
    /\ (forall k', k' <> k -> get k' (snd (update k p st)) = get k' st).

(** A lookup by a field that returns the first match, after a record [x]
    with the value [name] in that field was created: an older match still
    wins, and [x] is found when there was none. *)
Definition first_match_after_create
    (find_by : string -> MemStorage -> option obj)
    (create : obj -> MemStorage -> obj * MemStorage)
    (name : string) (x : obj) (st : MemStorage) : Prop :=
  find_by name (snd (create x st))
  = match find_by name st with
    | Some older => Some older
    | None => Some (fst (create x st))
    end.

(** The answers of the two middlewares. *)
Definition unauthorized : response := mkResponse 401 (JMessage "Unauthorized").
Definition forbidden : response := mkResponse 403 (JMessage "Forbidden").

(** What a write to one collection leaves alone: each of the following
    says that a collection and its counter are the same in two stores. *)
Definition same_users (st st' : MemStorage) : Prop :=
  users st' = users st /\ userIdCounter st' = userIdCounter st.

Definition same_appointments (st st' : MemStorage) : Prop :=
  appointments st' = appointments st /\ appointmentIdCounter st' = appointmentIdCounter st.

Definition same_beds (st st' : MemStorage) : Prop :=
  beds st' = beds st /\ bedIdCounter st' = bedIdCounter st.

Definition same_prescriptions (st st' : MemStorage) : Prop :=
  prescriptions st' = prescriptions st
  /\ prescriptionIdCounter st' = prescriptionIdCounter st.

Definition same_schedules (st st' : MemStorage) : Prop :=
  doctorSchedules st' = doctorSchedules st /\ scheduleIdCounter st' = scheduleIdCounter st.

Definition writes_appointments_only (h : handler) : Prop :=
  forall st, same_users st (snd (h st)) /\ same_beds st (snd (h st))
             /\ same_prescriptions st (snd (h st)) /\ same_schedules st (snd (h st)).

Definition writes_beds_only (h : handler) : Prop :=
  forall st, same_users st (snd (h st)) /\ same_appointments st (snd (h st))
             /\ same_prescriptions st (snd (h st)) /\ same_schedules st (snd (h st)).

Definition writes_prescriptions_only (h : handler) : Prop :=
  forall st, same_users st (snd (h st)) /\ same_appointments st (snd (h st))
             /\ same_beds st (snd (h st)) /\ same_schedules st (snd (h st)).

Definition writes_schedules_only (h : handler) : Prop :=
  forall st, same_users st (snd (h st)) /\ same_appointments st (snd (h st))
             /\ same_beds st (snd (h st)) /\ same_prescriptions st (snd (h st)).

Definition writes_nothing (h : handler) : Prop :=
  forall st, snd (h st) = st.

(** * A worked scenario

    One host, one set of parsers and one store built by the storage
    methods from the seed state, on which the theorems below are applied
    and the statements that do not hold are refuted. *)

Module Scenario.

Definition march15 : Z := 1710460800000.

(** A host on UTC whose [Date.parse] knows one date. *)
#[export] Instance utcHost : Host := {|
  Date_parse := fun s => if String.eqb s "2024-03-15" then Some march15 else None;
  LocalTZA := fun _ _ => 0
|}.

(** A parser that wants the [required] fields and keeps the listed ones. *)
Definition pick (fields : list string) (o : obj) : obj :=
  fold_right
    (fun f acc => match o !! f with Some v => <[ f := v ]> acc | None => acc end)
    ∅ fields.

Definition parser (required optional : list string) (o : obj) : obj + string :=
  if forallb (fun f => match o !! f with Some _ => true | None => false end) required
  then inl (pick (required ++ optional) o)
  else inr "Validation error: Required".

Lemma pick_lookup_None (fields : list string) (o : obj) (f : string) :
  o !! f = None -> pick fields o !! f = None.
Proof.
  intros Hf. induction fields as [|g fs IH]; simpl; [apply lookup_empty|].
  destruct (o !! g) eqn:Hg; [|exact IH].
  rewrite lookup_insert_ne; [exact IH | congruence].
Qed.

Lemma pick_lookup_In (fields : list string) (o : obj) (f : string) :
  In f fields -> pick fields o !! f = o !! f.
Proof.
  induction fields as [|g fs IH]; simpl; [tauto|].
  intros Hin. destruct (decide (g = f)) as [->|Hne].
  - destruct (o !! f) eqn:Hf; [apply lookup_insert_eq | now apply pick_lookup_None].
  - destruct Hin as [Heq|Hin]; [contradiction|].
    destruct (o !! g); [rewrite lookup_insert_ne by exact Hne|]; now apply IH.
Qed.

Lemma parser_keeps (required optional : list string) (o parsed : obj) (f : string) :
  In f (required ++ optional) ->
  parser required optional o = inl parsed ->
  parsed !! f = o !! f.
Proof.
  unfold parser. intros Hin.
  destruct (forallb _ required); [|discriminate].
  intros [= <-]. now apply pick_lookup_In.
Qed.

Definition appointmentParser : obj -> obj + string :=
  parser ["patientId"; "doctorId"; "appointmentDate"; "duration"; "status"; "type"]
         ["notes"].

Lemma appointmentParser_patientId (reqBody parsed : obj) :
  appointmentParser reqBody = inl parsed ->
  parsed !! "patientId" = reqBody !! "patientId".
Proof. apply parser_keeps. left. reflexivity. Qed.

#[export] Instance exampleSchemas : Schemas := {|
  insertAppointmentSchema := appointmentParser;
  insertBedSchema := parser ["bedNumber"; "ward"; "status"] ["patientId"];
  insertPrescriptionSchema :=
    parser ["patientId"; "doctorId"; "prescriptionDate"; "status"]
           ["notes"; "fileData"; "fileName"];
  insertDoctorScheduleSchema :=
    parser ["doctorId"; "day"; "startTime"; "endTime"; "activityType"] [];
  insertAppointmentSchema_patientId := appointmentParser_patientId
|}.

Definition newUser (username role : string) : obj :=
  {[ "username" := VStr username;
     "password" := VStr "5f4dcc3b";
     "email" := VStr (String.append username "@ward.example");
     "fullName" := VStr username;
     "role" := VStr role ]}.

Definition nurse1 : caller := mkCaller 1 "nurse".
Definition patient2 : caller := mkCaller 2 "patient".
Definition doctor3 : caller := mkCaller 3 "doctor".
Definition doctor4 : caller := mkCaller 4 "doctor".

Definition newSchedule (doctorId : Z) : obj :=
  {[ "doctorId" := VNum doctorId;
     "day" := VStr "monday";
     "startTime" := VStr "09:00";
     "endTime" := VStr "17:00";
     "activityType" := VStr "clinic" ]}.

Definition newAppointment (patientId : Z) (t : Z) : obj :=
  {[ "patientId" := VNum patientId;
     "doctorId" := VNum 3;
     "appointmentDate" := VDate (Some t);
     "duration" := VNum 30;
     "status" := VStr "scheduled";
     "type" := VStr "consultation" ]}.

Definition newPrescription : obj :=
  {[ "patientId" := VNum 2;
     "doctorId" := VNum 3;
     "prescriptionDate" := VDate (Some march15);
     "status" := VStr "active" ]}.

(** Users 1 (nurse), 2 (patient), 3 and 4 (doctors); a schedule of doctor
    3 and one whose [doctorId] 7 is no user's; appointments of patient 2
    on March 15 at 10:00 and at the next midnight; a prescription by
    doctor 3. *)
Definition withUsers : MemStorage :=
  snd (createUser (newUser "dan" "doctor")
    (snd (createUser (newUser "dora" "doctor")
      (snd (createUser (newUser "paul" "patient")
        (snd (createUser (newUser "nina" "nurse") newMemStorage))))))).

Definition hospital : MemStorage :=
  snd (createPrescription newPrescription
    (snd (createAppointment (newAppointment 2 (march15 + msPerDay))
      (snd (createAppointment (newAppointment 2 (march15 + 36000000))
        (snd (createDoctorSchedule (newSchedule 7)
          (snd (createDoctorSchedule (newSchedule 3) withUsers))))))))).

End Scenario.

(** A patient who is no user of the scenario store, and a body that
    occupies a bed. *)
Module ScenarioExtra.

Definition patient5 : caller := mkCaller 5 "patient".

Definition occupied : obj := {[ "status" := VStr "occupied" ]}.

End ScenarioExtra.

(** A host in New York around 10 March 2024, the day on which its clocks
    go from 02:00 to 03:00 at 07:00 UTC: the offset from UTC is five
    hours before that instant and four after it, and a clock reading is
    taken with the earlier offset up to 03:00 of that day.  The date-time
    that [Date.parse] knows has no offset of its own and is local: noon
    of March 10 is 16:00 UTC.  The store has appointments on March 9 at
    12:00 UTC, on March 10 at 15:00 UTC and on March 11 at 04:30 UTC,
    which is half an hour after midnight in New York. *)
Module ClockChange.

Definition march10 : Z := 1710028800000.

Definition noon : Z := march10 + 57600000.

Definition half_past_midnight : Z := march10 + msPerDay + 16200000.

#[export] Instance newYorkHost : Host := {|
  Date_parse := fun s => if String.eqb s "2024-03-10T12:00:00" then Some noon else None;
  LocalTZA := fun t isUTC =>
    if isUTC
    then if Z.ltb t (march10 + 25200000) then -18000000 else -14400000
    else if Z.ltb t (march10 + 10800000) then -18000000 else -14400000
|}.

Definition lateAppointment : obj :=
  <[ "id" := VNum 3 ]> (Scenario.newAppointment 2 half_past_midnight).

Definition clinic : MemStorage :=
  snd (createAppointment (Scenario.newAppointment 2 half_past_midnight)
    (snd (createAppointment (Scenario.newAppointment 2 (march10 + 54000000))
      (snd (createAppointment (Scenario.newAppointment 2 (march10 - 43200000))
        newMemStorage))))).

End ClockChange.

(** * Properties *)

(** ** The insertion-ordered map *)

Module JsMapFacts.
Import JsMap.

Lemma get_set_eq (k : Z) (v : obj) (m : t) : get k (set k v m) = Some v.
Proof.
  induction m as [|[k' v'] r IH]; simpl.
  - now rewrite Z.eqb_refl.
  - destruct (Z.eqb k' k) eqn:E; simpl.
    + now rewrite Z.eqb_refl.
    + now rewrite E.
Qed.

Lemma get_set_ne (k k' : Z) (v : obj) (m : t) :
  k <> k' -> get k' (set k v m) = get k' m.
Proof.
  intros Hne. induction m as [|[k0 v0] r IH]; simpl.
  - destruct (Z.eqb k k') eqn:E; [apply Z.eqb_eq in E; contradiction | reflexivity].
  - destruct (Z.eqb k0 k) eqn:E; simpl.
    + apply Z.eqb_eq in E. subst k0.
      destruct (Z.eqb k k') eqn:E'; [apply Z.eqb_eq in E'; contradiction | reflexivity].
    + now rewrite IH.
Qed.

Lemma get_None_notin (k : Z) (m : t) : get k m = None <-> ~ In k (keys m).
Proof.
  induction m as [|[k0 v0] r IH]; simpl.
  - tauto.
  - destruct (Z.eqb k0 k) eqn:E.
    + apply Z.eqb_eq in E. split; [discriminate | tauto].
    + apply Z.eqb_neq in E. rewrite IH. tauto.
Qed.

(** [set] on a key that is absent appends the entry *)
Lemma set_fresh (k : Z) (v : obj) (m : t) :
  get k m = None -> set k v m = m ++ [(k, v)].
Proof.
  induction m as [|[k0 v0] r IH]; simpl; [reflexivity|].
  destruct (Z.eqb k0 k); [discriminate|].
  intros Hg. now rewrite IH.
Qed.

End JsMapFacts.

(** ** Object spread *)

Lemma spread_lookup (r p : obj) (f : string) :
  spread r p !! f = match p !! f with Some v => Some v | None => r !! f end.
Proof.
  unfold spread. rewrite lookup_union.
  destruct (p !! f), (r !! f); reflexivity.
Qed.

Lemma strict_eq_num (a : option value) (n : Z) :
  strict_eq a (Some (VNum n)) = true <-> a = Some (VNum n).
Proof.
  destruct a as [[| | m | |]|]; simpl; split; try discriminate.
  - intros E. apply Z.eqb_eq in E. now subst.
  - intros [= ->]. apply Z.eqb_refl.
Qed.

(** ** Partial update *)

(** The four update methods have one shape: on a stored record, the merge
    is returned and is what [get] then finds. *)
Ltac solve_update_found get update :=
  unfold get, update;
  let Hg := fresh "Hg" in
  intros Hg; rewrite Hg; simpl;
  split; [reflexivity | apply JsMapFacts.get_set_eq].

Lemma updateAppointment_found (st : MemStorage) (k : Z) (p r : obj) :
  getAppointment k st = Some r ->
  fst (updateAppointment k p st) = Some (spread r p)
  /\ getAppointment k (snd (updateAppointment k p st)) = Some (spread r p).
Proof. solve_update_found getAppointment updateAppointment. Qed.

Lemma updateBed_found (st : MemStorage) (k : Z) (p r : obj) :
  getBed k st = Some r ->
  fst (updateBed k p st) = Some (spread r p)
  /\ getBed k (snd (updateBed k p st)) = Some (spread r p).
Proof. solve_update_found getBed updateBed. Qed.

Lemma updatePrescription_found (st : MemStorage) (k : Z) (p r : obj) :
  getPrescription k st = Some r ->
  fst (updatePrescription k p st) = Some (spread r p)
  /\ getPrescription k (snd (updatePrescription k p st)) = Some (spread r p).
Proof. solve_update_found getPrescription updatePrescription. Qed.

Lemma updateDoctorSchedule_found (st : MemStorage) (k : Z) (p r : obj) :
  getDoctorSchedule k st = Some r ->
  fst (updateDoctorSchedule k p st) = Some (spread r p)
  /\ getDoctorSchedule k (snd (updateDoctorSchedule k p st)) = Some (spread r p).
Proof. solve_update_found getDoctorSchedule updateDoctorSchedule. Qed.

Ltac solve_merges get update found :=
  let st := fresh "st" in
  let k := fresh "k" in
  let p := fresh "p" in
  let r := fresh "r" in
  let Hg := fresh "Hg" in
  let Hf := fresh "Hf" in
  let Hs := fresh "Hs" in
  intros st k p;
  destruct (get k st) as [r|] eqn:Hg;
  [ destruct (found st k p r Hg) as [Hf Hs];
    exists (spread r p), (snd (update k p st));
    split; [destruct (update k p st); simpl in Hf; now subst |];
    clear Hf;
    split; [exact Hs|];
    split; [intros ? ? Hf | intros ? Hf]; rewrite spread_lookup, Hf; reflexivity
  | unfold get in Hg; unfold update; now rewrite Hg ].

(** C6. For appointments, beds, prescriptions and schedules: [update(k, p)]
    on a stored record [r] stores and returns a record that has [p]'s value
    in every field [p] has and [r]'s value in every other field; on a key
    that is not in the collection it returns not-found ([undefined]) and
    the store is unchanged, collections and counters alike. *)
Theorem update_merges_or_not_found :
  merges_or_not_found getAppointment updateAppointment
  /\ merges_or_not_found getBed updateBed
  /\ merges_or_not_found getPrescription updatePrescription
  /\ merges_or_not_found getDoctorSchedule updateDoctorSchedule.
Proof.
  split; [solve_merges getAppointment updateAppointment updateAppointment_found|].
  split; [solve_merges getBed updateBed updateBed_found|].
  split; [solve_merges getPrescription updatePrescription updatePrescription_found|].
  solve_merges getDoctorSchedule updateDoctorSchedule updateDoctorSchedule_found.
Qed.

(** ** Create, then get *)

Lemma spread_id (x : obj) (n : Z) :
  spread x {[ "id" := VNum n ]} = <[ "id" := VNum n ]> x.
Proof. unfold spread. now rewrite insert_union_singleton_l. Qed.

Section CreateGet.
Context `{Host}.

Lemma dated_insert (f : string) (x : obj) (n : Z) (t : option Z) :
  f <> "id" ->
  x !! f = Some (VDate t) ->
  <[ f := VDate (newDate (x !! f)) ]> (<[ "id" := VNum n ]> x) = <[ "id" := VNum n ]> x.
Proof.
  intros Hf Hx. rewrite Hx. simpl. apply insert_id.
  rewrite lookup_insert_ne by congruence. exact Hx.
Qed.

(** C7. For users, appointments, beds, prescriptions and schedules:
    [create(x)] returns a record with an assigned id [n], [get(n)] on the
    resulting store returns that record, and the record is [x] merged
    with [{id: n}].  For appointments and prescriptions [x] is of the
    declared insert type, its timestamp a [Date], which [new Date(...)]
    copies. *)
Theorem create_then_get :
  creates_then_gets createUser getUser any_payload
  /\ creates_then_gets createAppointment getAppointment (date_field "appointmentDate")
  /\ creates_then_gets createBed getBed any_payload
  /\ creates_then_gets createPrescription getPrescription (date_field "prescriptionDate")
  /\ creates_then_gets createDoctorSchedule getDoctorSchedule any_payload.
Proof.
  repeat split.
  - intros x st _. exists (userIdCounter st). simpl.
    rewrite spread_id, lookup_insert_eq. unfold getUser. simpl.
    now rewrite JsMapFacts.get_set_eq.
  - intros x st [t Ht]. exists (appointmentIdCounter st). simpl.
    rewrite (dated_insert _ _ _ t) by (congruence || exact Ht).
    rewrite spread_id, lookup_insert_eq. unfold getAppointment. simpl.
    now rewrite JsMapFacts.get_set_eq.
  - intros x st _. exists (bedIdCounter st). simpl.
    rewrite spread_id, lookup_insert_eq. unfold getBed. simpl.
    now rewrite JsMapFacts.get_set_eq.
  - intros x st [t Ht]. exists (prescriptionIdCounter st). simpl.
    rewrite (dated_insert _ _ _ t) by (congruence || exact Ht).
    rewrite spread_id, lookup_insert_eq. unfold getPrescription. simpl.
    now rewrite JsMapFacts.get_set_eq.
  - intros x st _. exists (scheduleIdCounter st). simpl.
    rewrite spread_id, lookup_insert_eq. unfold getDoctorSchedule. simpl.
    now rewrite JsMapFacts.get_set_eq.
Qed.

End CreateGet.

(** ** The handlers that update *)

Lemma put_bed_allowed (st : MemStorage) (k : Z) (r body : obj) (u : caller) :
  getBed k st = Some r ->
  includes ["doctor"; "nurse"] (caller_role u) = true ->
  Routes.put_bed (Some u) k body st
  = (mkResponse 200 (JObj (spread r body)), snd (updateBed k body st)).
Proof.
  intros Hg Hrole. unfold Routes.put_bed, ensureAuthenticated, checkRole.
  rewrite Hrole, Hg.
  destruct (updateBed_found st k body r Hg) as [Hf _].
  destruct (updateBed k body st) as [res st']. simpl in *. now subst res.
Qed.

Lemma put_appointment_allowed (st : MemStorage) (k : Z) (r body : obj) (u : caller) :
  getAppointment k st = Some r ->
  is_role u "patient" && negb (strict_eq (r !! "patientId") (id_of u)) = false ->
  Routes.put_appointment (Some u) k body st
  = (mkResponse 200 (JObj (spread r body)), snd (updateAppointment k body st)).
Proof.
  intros Hg Hown. unfold Routes.put_appointment, ensureAuthenticated.
  rewrite Hg, Hown.
  destruct (updateAppointment_found st k body r Hg) as [Hf _].
  destruct (updateAppointment k body st) as [res st']. simpl in *. now subst res.
Qed.

Lemma put_prescription_allowed (st : MemStorage) (k : Z) (r body : obj) (u : caller) :
  getPrescription k st = Some r ->
  caller_role u = "doctor" ->
  strict_eq (r !! "doctorId") (id_of u) = true ->
  Routes.put_prescription (Some u) k body st
  = (mkResponse 200 (JObj (spread r body)), snd (updatePrescription k body st)).
Proof.
  intros Hg Hrole Hown. unfold Routes.put_prescription, ensureAuthenticated, checkRole.
  assert (Hinc : includes ["doctor"] (caller_role u) = true) by now rewrite Hrole.
  rewrite Hinc, Hg, Hown. simpl.
  destruct (updatePrescription_found st k body r Hg) as [Hf _].
  destruct (updatePrescription k body st) as [res st']. simpl in *. now subst res.
Qed.

Lemma put_prescription_denied (st : MemStorage) (k : Z) (r body : obj) (u : caller) :
  getPrescription k st = Some r ->
  caller_role u = "doctor" ->
  strict_eq (r !! "doctorId") (id_of u) = false ->
  Routes.put_prescription (Some u) k body st
  = (mkResponse 403 (JMessage "You can only modify your own prescriptions"), st).
Proof.
  intros Hg Hrole Hown. unfold Routes.put_prescription, ensureAuthenticated, checkRole.
  assert (Hinc : includes ["doctor"] (caller_role u) = true) by now rewrite Hrole.
  now rewrite Hinc, Hg, Hown.
Qed.

(** ** The id of an updated record *)

Lemma spread_keeps_id (r p : obj) (k : Z) :
  r !! "id" = Some (VNum k) -> p !! "id" = None ->
  spread r p !! "id" = Some (VNum k).
Proof. intros Hr Hp. now rewrite spread_lookup, Hp. Qed.

Lemma spread_takes_id (r p : obj) (v : value) :
  p !! "id" = Some v -> spread r p !! "id" = Some v.
Proof. intros Hp. now rewrite spread_lookup, Hp. Qed.

(** C10. An update whose payload omits [id] keeps the record's [id] equal
    to its key, for the four kinds that have an update.  Nothing enforces
    this when the payload has an [id]: [PUT /api/appointments/:id] and
    [PUT /api/beds/:id] merge the request body as it is, so a body whose
    [id] is not the key leaves a record stored under the key [k] whose
    [id] is the body's. *)
Theorem update_keeps_id_unless_payload_has_id :
  (keeps_id getAppointment updateAppointment
   /\ keeps_id getBed updateBed
   /\ keeps_id getPrescription updatePrescription
   /\ keeps_id getDoctorSchedule updateDoctorSchedule)
  /\ (forall st k r body u v,
        getAppointment k st = Some r ->
        is_role u "patient" && negb (strict_eq (r !! "patientId") (id_of u)) = false ->
        body !! "id" = Some v ->
        v <> VNum k ->
        exists r' st',
          Routes.put_appointment (Some u) k body st = (mkResponse 200 (JObj r'), st')
          /\ getAppointment k st' = Some r'
          /\ r' !! "id" = Some v
          /\ r' !! "id" <> Some (VNum k))
  /\ (forall st k r body u v,
        getBed k st = Some r ->
        includes ["doctor"; "nurse"] (caller_role u) = true ->
        body !! "id" = Some v ->
        v <> VNum k ->
        exists r' st',
          Routes.put_bed (Some u) k body st = (mkResponse 200 (JObj r'), st')
          /\ getBed k st' = Some r'
          /\ r' !! "id" = Some v
          /\ r' !! "id" <> Some (VNum k)).
Proof.
  split; [repeat split|split].
  - intros st k p r Hg Hr Hp. exists (spread r p).
    destruct (updateAppointment_found st k p r Hg) as [-> ->].
    auto using spread_keeps_id.
  - intros st k p r Hg Hr Hp. exists (spread r p).
    destruct (updateBed_found st k p r Hg) as [-> ->].
    auto using spread_keeps_id.
  - intros st k p r Hg Hr Hp. exists (spread r p).
    destruct (updatePrescription_found st k p r Hg) as [-> ->].
    auto using spread_keeps_id.
  - intros st k p r Hg Hr Hp. exists (spread r p).
    destruct (updateDoctorSchedule_found st k p r Hg) as [-> ->].
    auto using spread_keeps_id.
  - intros st k r body u v Hg Hown Hb Hv.
    exists (spread r body), (snd (updateAppointment k body st)).
    split; [now apply (put_appointment_allowed st k r)|].
    split; [apply (updateAppointment_found st k body r Hg)|].
    rewrite (spread_takes_id r body v Hb). split; congruence.
  - intros st k r body u v Hg Hrole Hb Hv.
    exists (spread r body), (snd (updateBed k body st)).
    split; [now apply (put_bed_allowed st k r)|].
    split; [apply (updateBed_found st k body r Hg)|].
    rewrite (spread_takes_id r body v Hb). split; congruence.
Qed.

(** C3. For a stored prescription [p] and a caller with role doctor,
    [PUT /api/prescriptions/:id] applies the update exactly when the stored
    [p.doctorId] is the caller's id; otherwise it answers 403 and the store
    is unchanged.  The decision is the same for every request body,
    whatever [doctorId] the body carries. *)
Theorem put_prescription_checks_stored_owner
    (st : MemStorage) (k : Z) (p : obj) (u : caller) (body : obj) :
  getPrescription k st = Some p ->
  caller_role u = "doctor" ->
  (p !! "doctorId" = Some (VNum (caller_id u)) ->
     Routes.put_prescription (Some u) k body st
     = (mkResponse 200 (JObj (spread p body)), snd (updatePrescription k body st))
     /\ getPrescription k (snd (updatePrescription k body st)) = Some (spread p body))
  /\ (p !! "doctorId" <> Some (VNum (caller_id u)) ->
     Routes.put_prescription (Some u) k body st
     = (mkResponse 403 (JMessage "You can only modify your own prescriptions"), st))
  /\ (forall body',
        status (fst (Routes.put_prescription (Some u) k body' st))
        = status (fst (Routes.put_prescription (Some u) k body st))).
Proof.
  intros Hg Hrole.
  destruct (strict_eq (p !! "doctorId") (id_of u)) eqn:Hown.
  - pose proof (proj1 (strict_eq_num _ _) Hown) as Heq.
    split; [|split].
    + intros _. split; [now apply (put_prescription_allowed st k p)|].
      apply (updatePrescription_found st k body p Hg).
    + intros Hne. contradiction.
    + intros body'.
      now rewrite !(put_prescription_allowed st k p _ u Hg Hrole Hown).
  - assert (Hne : p !! "doctorId" <> Some (VNum (caller_id u))).
    { intros Heq. apply (proj2 (strict_eq_num _ _)) in Heq.
      unfold id_of in Hown. congruence. }
    split; [|split].
    + intros Heq. contradiction.
    + intros _. now apply (put_prescription_denied st k p).
    + intros body'.
      now rewrite !(put_prescription_denied st k p _ u Hg Hrole Hown).
Qed.

(** ** What a patient may create and list *)

Lemma is_role_true (u : caller) (role : string) :
  caller_role u = role -> is_role u role = true.
Proof. intros <-. apply String.eqb_refl. Qed.

Lemma filter_field_num (f : string) (n : Z) (m : JsMap.t) :
  List.Forall (fun r : obj => r !! f = Some (VNum n)) (filter_field f (Some (VNum n)) m).
Proof.
  apply List.Forall_forall. intros r Hin.
  apply List.filter_In in Hin. destruct Hin as [_ Heq].
  now apply strict_eq_num.
Qed.

Section PatientCreates.
Context `{Host} `{Schemas}.

(** C4. A caller with role patient posts a payload that the appointment
    schema accepts: if the payload's [patientId] is not the caller's id
    the answer is 403 and nothing is stored; if it is, the answer is 201
    with the created record, which the store then holds. *)
Theorem post_appointment_by_patient
    (st : MemStorage) (u : caller) (reqBody appointmentData : obj) :
  caller_role u = "patient" ->
  insertAppointmentSchema reqBody = inl appointmentData ->
  (reqBody !! "patientId" <> Some (VNum (caller_id u)) ->
     Routes.post_appointment (Some u) reqBody st
     = (mkResponse 403 (JMessage "You can only create appointments for yourself"), st))
  /\ (reqBody !! "patientId" = Some (VNum (caller_id u)) ->
     Routes.post_appointment (Some u) reqBody st
     = (mkResponse 201 (JObj (fst (createAppointment appointmentData st))),
        snd (createAppointment appointmentData st))
     /\ getAppointment (appointmentIdCounter st)
          (snd (createAppointment appointmentData st))
        = Some (fst (createAppointment appointmentData st))
     /\ fst (createAppointment appointmentData st) !! "patientId"
        = Some (VNum (caller_id u))).
Proof.
  intros Hrole Hparse.
  rewrite <- (insertAppointmentSchema_patientId reqBody appointmentData Hparse).
  unfold Routes.post_appointment, ensureAuthenticated, handleValidation, id_of.
  rewrite Hparse, (is_role_true u "patient" Hrole). simpl andb.
  split.
  - intros Hne.
    destruct (strict_eq (appointmentData !! "patientId") (Some (VNum (caller_id u)))) eqn:E.
    + apply strict_eq_num in E. contradiction.
    + reflexivity.
  - intros Heq.
    rewrite (proj2 (strict_eq_num _ _) Heq). simpl.
    split; [reflexivity|]. split.
    + unfold getAppointment. simpl. apply JsMapFacts.get_set_eq.
    + rewrite !lookup_insert_ne by discriminate. exact Heq.
Qed.

End PatientCreates.

(** C5. For a caller with role patient, [GET /api/appointments] and
    [GET /api/prescriptions] answer with records whose [patientId] is the
    caller's id, all of them. *)
Theorem patient_lists_only_own_records (st : MemStorage) (u : caller) :
  caller_role u = "patient" ->
  exists la lp,
    Routes.get_appointments (Some u) st = (mkResponse 200 (JArr la), st)
    /\ List.Forall (fun r : obj => r !! "patientId" = Some (VNum (caller_id u))) la
    /\ Routes.get_prescriptions (Some u) st = (mkResponse 200 (JArr lp), st)
    /\ List.Forall (fun r : obj => r !! "patientId" = Some (VNum (caller_id u))) lp.
Proof.
  intros Hrole.
  exists (getAppointmentsByPatient (id_of u) st), (getPrescriptionsByPatient (id_of u) st).
  unfold Routes.get_appointments, Routes.get_prescriptions, ensureAuthenticated.
  rewrite (is_role_true u "patient" Hrole).
  repeat split; apply filter_field_num.
Qed.

(** ** The user lists *)

Lemma without_password_spec (l : list obj) :
  List.Forall2
    (fun (o stored : obj) =>
       o !! "password" = None /\ forall f, f <> "password" -> o !! f = stored !! f)
    (map without_password l) l.
Proof.
  induction l as [|x l IH]; simpl; constructor; [|exact IH].
  unfold without_password. split.
  - apply lookup_delete_eq.
  - intros f Hf. now apply lookup_delete_ne.
Qed.

(** C9, as the code has it.  [GET /api/users/doctors] answers every
    authenticated caller, and [GET /api/users/patients] every caller with
    role doctor or nurse, with the stored users of the role, in store
    order, each without a [password] field and with every other field
    unchanged.  [GET /api/users/patients] answers any other authenticated
    caller 403 with the message [Forbidden] and no user data.  The store
    is left as it was. *)
Theorem user_lists_strip_password (st : MemStorage) (u : caller) :
  (lists_without_password "doctor" (fst (Routes.get_users_doctors (Some u) st)) st
   /\ snd (Routes.get_users_doctors (Some u) st) = st)
  /\ (includes ["doctor"; "nurse"] (caller_role u) = true ->
      lists_without_password "patient" (fst (Routes.get_users_patients (Some u) st)) st
      /\ snd (Routes.get_users_patients (Some u) st) = st)
  /\ (includes ["doctor"; "nurse"] (caller_role u) = false ->
      Routes.get_users_patients (Some u) st
      = (mkResponse 403 (JMessage "Forbidden"), st)).
Proof.
  split; [|split].
  - split; [|reflexivity].
    exists (map without_password (getUsersByRole "doctor" st)).
    split; [reflexivity | apply without_password_spec].
  - intros Hrole.
    unfold Routes.get_users_patients, ensureAuthenticated, checkRole.
    rewrite Hrole. split; [|reflexivity].
    exists (map without_password (getUsersByRole "patient" st)).
    split; [reflexivity | apply without_password_spec].
  - intros Hrole.
    unfold Routes.get_users_patients, ensureAuthenticated, checkRole.
    now rewrite Hrole.
Qed.

(** ** The schedules of all doctors *)

Lemma strict_eq_true (a b : option value) : strict_eq a b = true -> a = b.
Proof.
  destruct a as [[| x | x | x | x]|], b as [[| y | y | y | y]|];
    simpl; try discriminate; try reflexivity; intros E.
  - apply Bool.eqb_prop in E. now subst.
  - apply Z.eqb_eq in E. now subst.
  - apply String.eqb_eq in E. now subst.
Qed.

Lemma fold_left_push {A B : Type} (g : A -> list B) (ds : list A) (init : list B) :
  fold_left (fun acc d => acc ++ g d) ds init = init ++ concat (map g ds).
Proof.
  revert init. induction ds as [|d ds IH]; intros init; simpl.
  - now rewrite app_nil_r.
  - now rewrite IH, app_assoc.
Qed.

Lemma filter_orb_disjoint {A : Type} (f g : A -> bool) (l : list A) :
  (forall x, f x = true -> g x = true -> False) ->
  Permutation (List.filter (fun x => f x || g x) l) (List.filter f l ++ List.filter g l).
Proof.
  intros Hdis. induction l as [|a l IH]; simpl; [constructor|].
  destruct (f a) eqn:Ef, (g a) eqn:Eg; simpl.
  - exfalso. eauto.
  - now apply perm_skip.
  - now apply Permutation_cons_app.
  - exact IH.
Qed.

(** One filtered scan per key, for distinct keys, against one scan for
    the keys together. *)
Lemma scans_by_distinct_keys (f : string) (ds : list (option value)) (l : list obj) :
  List.NoDup ds ->
  Permutation
    (concat (map (fun d => List.filter (fun x : obj => strict_eq (x !! f) d) l) ds))
    (List.filter (fun x : obj => existsb (strict_eq (x !! f)) ds) l).
Proof.
  induction ds as [|d ds IH]; intros Hnd; simpl.
  - induction l as [|a l IHl]; simpl; [constructor | exact IHl].
  - inversion Hnd as [|? ? Hnotin Hnd']; subst.
    rewrite (filter_orb_disjoint
               (fun x : obj => strict_eq (x !! f) d)
               (fun x : obj => existsb (strict_eq (x !! f)) ds)).
    + apply Permutation_app_head. now apply IH.
    + intros x Hd Hex. apply Hnotin.
      apply strict_eq_true in Hd.
      apply List.existsb_exists in Hex. destruct Hex as (d' & Hin & Hd').
      apply strict_eq_true in Hd'. congruence.
Qed.

Lemma users_wf_distinct_ids (role : string) (st : MemStorage) :
  users_wf st ->
  List.NoDup (map (fun d : obj => d !! "id") (getUsersByRole role st)).
Proof.
  unfold users_wf, getUsersByRole, filter_field, JsMap.values, JsMap.keys.
  generalize (users st) as m. intros m [Hnd Hall].
  induction m as [|[k x] m IH]; simpl; [constructor|].
  inversion Hnd as [|? ? Hk Hnd']; subst.
  inversion Hall as [|? ? [Hid _] Hall']; subst. simpl in Hid.
  specialize (IH Hnd' Hall').
  destruct (strict_eq (x !! "role") (Some (VStr role))); [|exact IH].
  simpl. constructor; [|exact IH].
  rewrite Hid. intros Hin. apply Hk.
  apply List.in_map_iff in Hin. destruct Hin as (y & Hy & Hin).
  apply List.filter_In in Hin. destruct Hin as [Hin _].
  apply List.in_map_iff in Hin. destruct Hin as ([k' y'] & Hsnd & Hin).
  simpl in Hsnd. subst y'.
  rewrite List.Forall_forall in Hall'. destruct (Hall' _ Hin) as [Hid' _].
  simpl in Hid'. assert (k' = k) by congruence. subst k'.
  apply List.in_map_iff. now exists (k, y).
Qed.

Lemma users_wf_createUser (x : obj) (st : MemStorage) :
  users_wf st -> users_wf (snd (createUser x st)).
Proof.
  intros [Hnd Hall]. unfold users_wf. simpl.
  assert (Hfresh : JsMap.get (userIdCounter st) (users st) = None).
  { apply JsMapFacts.get_None_notin. intros Hin.
    apply List.in_map_iff in Hin. destruct Hin as ([k y] & Hk & Hin).
    rewrite List.Forall_forall in Hall. destruct (Hall _ Hin) as [_ Hlt].
    simpl in *. lia. }
  rewrite (JsMapFacts.set_fresh _ _ _ Hfresh). split.
  - unfold JsMap.keys. rewrite List.map_app. simpl.
    apply List.NoDup_app. repeat split.
    + exact Hnd.
    + constructor; [intros []| constructor].
    + intros k Hin [<-|[]].
      apply (proj1 (JsMapFacts.get_None_notin _ _) Hfresh). exact Hin.
  - apply List.Forall_app. split.
    + eapply List.Forall_impl; [|exact Hall].
      intros [k y] [Hid Hlt]. simpl in *. split; [exact Hid | lia].
    + constructor; [|constructor]. simpl. split; [apply lookup_insert_eq | lia].
Qed.

Section Reachable.
Context `{Host}.

Lemma users_wf_frame (st st' : MemStorage) :
  users st' = users st -> userIdCounter st' = userIdCounter st ->
  users_wf st -> users_wf st'.
Proof. unfold users_wf. intros -> ->. trivial. Qed.

Lemma Reachable_users_wf (st : MemStorage) : Reachable st -> users_wf st.
Proof.
  induction 1 as [ | x st _ IH | x st _ IH | k p st _ IH | k st _ IH
                   | x st _ IH | k p st _ IH | x st _ IH | k p st _ IH
                   | x st _ IH | k p st _ IH | k st _ IH ].
  - split; [constructor | constructor].
  - now apply users_wf_createUser.
  - revert IH. now apply users_wf_frame.
  - revert IH. apply users_wf_frame;
      unfold updateAppointment; destruct (JsMap.get _ _); reflexivity.
  - revert IH. apply users_wf_frame;
      unfold deleteAppointment; destruct (JsMap.delete _ _); reflexivity.
  - revert IH. now apply users_wf_frame.
  - revert IH. apply users_wf_frame;
      unfold updateBed; destruct (JsMap.get _ _); reflexivity.
  - revert IH. now apply users_wf_frame.
  - revert IH. apply users_wf_frame;
      unfold updatePrescription; destruct (JsMap.get _ _); reflexivity.
  - revert IH. now apply users_wf_frame.
  - revert IH. apply users_wf_frame;
      unfold updateDoctorSchedule; destruct (JsMap.get _ _); reflexivity.
  - revert IH. apply users_wf_frame;
      unfold deleteDoctorSchedule; destruct (JsMap.delete _ _); reflexivity.
Qed.

(** C2, as the code has it.  For a caller whose role is not doctor
    (a nurse among them), [GET /api/schedules] answers 200 with the
    concatenation, over the users with role doctor in store order, of the
    schedule entries whose [doctorId] is that user's id.  In a store the
    program can be in, this is a rearrangement of the entries of the
    schedules collection whose [doctorId] is the id of some user with
    role doctor: each of them once and no other entry. *)
Theorem nurse_schedules_concat_per_doctor (st : MemStorage) (u : caller) :
  Reachable st ->
  caller_role u <> "doctor" ->
  let doctors := getUsersByRole "doctor" st in
  let l := concat (map (fun d : obj => getDoctorSchedulesByDoctor (d !! "id") st) doctors) in
  Routes.get_schedules (Some u) st = (mkResponse 200 (JArr l), st)
  /\ Permutation l
       (List.filter
          (fun s : obj =>
             existsb (strict_eq (s !! "doctorId")) (map (fun d : obj => d !! "id") doctors))
          (JsMap.values (doctorSchedules st))).
Proof.
  intros Hreach Hrole doctors l. split.
  - unfold Routes.get_schedules, ensureAuthenticated, is_role.
    apply String.eqb_neq in Hrole. rewrite Hrole.
    now rewrite fold_left_push.
  - subst l. unfold getDoctorSchedulesByDoctor, filter_field.
    pose proof (users_wf_distinct_ids "doctor" st (Reachable_users_wf st Hreach)) as Hnd.
    fold doctors in Hnd.
    rewrite <- (scans_by_distinct_keys "doctorId" _ _ Hnd).
    now rewrite List.map_map.
Qed.

End Reachable.

(** The handlers keep the store among those the program can be in: they
    write through the storage methods only. *)
Section HandlersReachable.
Context `{Host} `{Schemas}.

Lemma ensureAuthenticated_preserves (user : option caller) (next : caller -> handler) :
  (forall u, preserves_Reachable (next u)) ->
  preserves_Reachable (ensureAuthenticated user next).
Proof. intros Hnext. destruct user as [u|]; [apply Hnext | intros st Hst; exact Hst]. Qed.

Lemma checkRole_preserves (roles : list string) (user : option caller)
    (next : caller -> handler) :
  (forall u, preserves_Reachable (next u)) ->
  preserves_Reachable (checkRole roles user next).
Proof.
  intros Hnext. destruct user as [u|]; simpl; [|intros st Hst; exact Hst].
  destruct (includes roles (caller_role u)); [apply Hnext | intros st Hst; exact Hst].
Qed.

Ltac written_through :=
  lazymatch goal with
  | E : ?c = (_, ?m) |- Reachable ?m =>
      replace m with (snd c) by (rewrite E; reflexivity);
      first [ apply R_createAppointment | apply R_updateAppointment
            | apply R_deleteAppointment | apply R_createBed | apply R_updateBed
            | apply R_createPrescription | apply R_updatePrescription
            | apply R_createDoctorSchedule | apply R_updateDoctorSchedule
            | apply R_deleteDoctorSchedule ];
      assumption
  end.

Ltac handler_cases :=
  repeat first
    [ assumption
    | written_through
    | progress cbn [reply catch_error snd]
    | match goal with
      | |- Reachable (snd (match ?x with _ => _ end)) => destruct x eqn:?
      | |- Reachable (snd ((if ?b then _ else _) _)) => destruct b
      | |- Reachable (snd (if ?b then _ else _)) => destruct b
      end ].

Ltac handler_preserves :=
  repeat first
    [ apply ensureAuthenticated_preserves; intros ?
    | apply checkRole_preserves; intros ? ];
  let st := fresh "st" in
  let Hst := fresh "Hst" in
  intros st Hst; handler_cases.

Lemma writing_handlers_preserve_Reachable (user : option caller) (id : Z) (reqBody : obj) :
  preserves_Reachable (Routes.post_appointment user reqBody)
  /\ preserves_Reachable (Routes.put_appointment user id reqBody)
  /\ preserves_Reachable (Routes.delete_appointment user id)
  /\ preserves_Reachable (Routes.post_bed user reqBody)
  /\ preserves_Reachable (Routes.put_bed user id reqBody)
  /\ preserves_Reachable (Routes.post_prescription user reqBody)
  /\ preserves_Reachable (Routes.put_prescription user id reqBody)
  /\ preserves_Reachable (Routes.post_schedule user reqBody)
  /\ preserves_Reachable (Routes.put_schedule user id reqBody)
  /\ preserves_Reachable (Routes.delete_schedule user id).
Proof.
  unfold Routes.post_appointment, Routes.put_appointment, Routes.delete_appointment,
    Routes.post_bed, Routes.put_bed, Routes.post_prescription, Routes.put_prescription,
    Routes.post_schedule, Routes.put_schedule, Routes.delete_schedule.
  repeat split; handler_preserves.
Qed.

End HandlersReachable.

(** ** Appointments of a day *)

Lemma filter_none {A : Type} (f : A -> bool) (l : list A) :
  (forall x, f x = false) -> List.filter f l = [].
Proof.
  intros Hf. induction l as [|a l IH]; simpl; [reflexivity|].
  now rewrite Hf.
Qed.

Lemma msPerDay_pos : 0 < msPerDay.
Proof. reflexivity. Qed.

Lemma TimeClip_in_range (t : Z) : in_range t -> TimeClip t = Some t.
Proof.
  unfold in_range, TimeClip. intros [Hlo Hhi].
  apply Z.leb_le in Hlo. apply Z.leb_le in Hhi. now rewrite Hlo, Hhi.
Qed.

Lemma TimeClip_Some (t t' : Z) : TimeClip t = Some t' -> t' = t /\ in_range t.
Proof.
  unfold in_range, TimeClip.
  destruct (Z.leb (- maxTime) t) eqn:Hlo; [|discriminate].
  destruct (Z.leb t maxTime) eqn:Hhi; [|discriminate].
  intros [= <-]. apply Z.leb_le in Hlo. apply Z.leb_le in Hhi. auto.
Qed.

Lemma TimeClip_None (t : Z) : TimeClip t = None -> ~ in_range t.
Proof.
  intros Hc Hr. rewrite (TimeClip_in_range t Hr) in Hc. discriminate.
Qed.

Section ByDate.
Context `{Host}.

Lemma setHours0_localMidnight (t : Z) :
  setHours0 (Some t) = TimeClip (localMidnight (localDay t)).
Proof. reflexivity. Qed.

Lemma setDateNext_dayAfter (t : Z) :
  setDateNext (Some t) = TimeClip (dayAfter t).
Proof.
  unfold setDateNext, dayAfter, Day, TimeWithinDay. do 2 f_equal.
  pose proof (Z.div_mod (LocalTime t) msPerDay) as E.
  assert (msPerDay <> 0) as Hnz by (pose proof msPerDay_pos; lia).
  specialize (E Hnz). lia.
Qed.

(** Where the local clock reads midnight at the start of day [D], one
    calendar day after it is the start of day [D + 1]. *)
Lemma dayAfter_localMidnight (D : Z) :
  LocalTime (localMidnight D) = D * msPerDay ->
  dayAfter (localMidnight D) = localMidnight (D + 1).
Proof.
  intros Hmid. unfold dayAfter. rewrite Hmid. unfold localMidnight.
  f_equal. lia.
Qed.

Lemma getAppointmentsByDate_window (st : MemStorage) (t0 : Z) :
  in_range (localMidnight (localDay t0)) ->
  in_range (dayAfter (localMidnight (localDay t0))) ->
  getAppointmentsByDate (Some t0) st
  = List.filter
      (in_window (localMidnight (localDay t0)) (dayAfter (localMidnight (localDay t0))))
      (JsMap.values (appointments st)).
Proof.
  intros Hstart Hnext. unfold getAppointmentsByDate.
  rewrite setHours0_localMidnight, (TimeClip_in_range _ Hstart).
  rewrite setDateNext_dayAfter, (TimeClip_in_range _ Hnext).
  apply List.filter_ext. intros a. unfold in_window, appointmentTime.
  destruct (newDate (a !! "appointmentDate")); reflexivity.
Qed.

(** Where the start of the day or the start of the next is no time value
    of a [Date], the comparisons are with [NaN] and nothing passes. *)
Lemma getAppointmentsByDate_clipped (st : MemStorage) (t0 : Z) :
  ~ (in_range (localMidnight (localDay t0))
     /\ in_range (dayAfter (localMidnight (localDay t0)))) ->
  getAppointmentsByDate (Some t0) st = [].
Proof.
  intros Hout. unfold getAppointmentsByDate.
  rewrite setHours0_localMidnight.
  destruct (TimeClip (localMidnight (localDay t0))) as [s|] eqn:Hs.
  - apply TimeClip_Some in Hs. destruct Hs as [-> Hstart].
    rewrite setDateNext_dayAfter.
    destruct (TimeClip (dayAfter (localMidnight (localDay t0)))) as [n|] eqn:Hn.
    + apply TimeClip_Some in Hn. tauto.
    + apply filter_none. intros a. simpl.
      destruct (newDate (a !! "appointmentDate")); [apply Bool.andb_false_r | reflexivity].
  - apply filter_none. intros a. simpl.
    now destruct (newDate (a !! "appointmentDate")).
Qed.

Lemma in_window_spec (start next : Z) (a : obj) :
  in_window start next a = true
  <-> exists t, appointmentTime a = Some t /\ start <= t < next.
Proof.
  unfold in_window. destruct (appointmentTime a) as [t|].
  - rewrite Bool.andb_true_iff, Z.leb_le, Z.ltb_lt. split.
    + intros Hb. exists t. split; [reflexivity | lia].
    + intros (t' & [= <-] & Hb). lia.
  - split; [discriminate | intros (t' & [=] & _)].
Qed.

(** *** Hosts whose offset never changes *)

Lemma fixed_offset_localMidnight (off D : Z) :
  fixed_offset off -> localMidnight D = D * msPerDay - off.
Proof. intros Hoff. unfold localMidnight, UTC. now rewrite Hoff. Qed.

Lemma fixed_offset_midnight (off D : Z) :
  fixed_offset off -> LocalTime (localMidnight D) = D * msPerDay.
Proof.
  intros Hoff. unfold LocalTime. rewrite Hoff, (fixed_offset_localMidnight off D Hoff). lia.
Qed.

Lemma fixed_offset_dayAfter (off t : Z) :
  fixed_offset off -> dayAfter t = t + msPerDay.
Proof.
  intros Hoff. unfold dayAfter, UTC, LocalTime. rewrite !Hoff. lia.
Qed.

Lemma fixed_offset_bounds (off t : Z) :
  fixed_offset off ->
  localMidnight (localDay t) <= t < localMidnight (localDay t) + msPerDay.
Proof.
  intros Hoff. rewrite (fixed_offset_localMidnight off _ Hoff).
  unfold localDay, Day, LocalTime. rewrite Hoff.
  pose proof (Z.div_mod (t + off) msPerDay) as E.
  pose proof (Z.mod_pos_bound (t + off) msPerDay msPerDay_pos) as B.
  assert (msPerDay <> 0) as Hnz by (pose proof msPerDay_pos; lia).
  specialize (E Hnz). lia.
Qed.

(** C8. Let [d] be a valid date on the local day [D] of the server's time
    zone, [start] the instant at which day [D] starts
    ([d.setHours(0, 0, 0, 0)]) and [next] the instant one calendar day
    after [start] ([setDate(getDate() + 1)] of it).  With [start] and
    [next] in the range of [Date], [getAppointmentsByDate(d)] returns, in
    store order, exactly the appointments whose [appointmentDate] [t] has
    [start <= t < next]: one at [start] is returned (when the interval is
    not empty), one at [next] is not; with [start] or [next] out of that
    range it returns nothing.  Where the local clock reads midnight at
    [start], [next] is the next day's 00:00:00, the start of day [D + 1],
    and the interval is as long as the local day: 24 hours less the change
    of the offset from UTC over the day.  On a host whose offset never
    changes that is [start <= t < start + 24 hours], and
    [start <= d < next].
    [GET /api/appointments/date/:date] answers with that list. *)
Theorem appointments_of_the_day (st : MemStorage) (t0 : Z) :
  let D := localDay t0 in
  let start := localMidnight D in
  let next := dayAfter start in
  (in_range start -> in_range next ->
   getAppointmentsByDate (Some t0) st
   = List.filter (in_window start next) (JsMap.values (appointments st))
   /\ (forall a,
         In a (getAppointmentsByDate (Some t0) st)
         <-> In a (JsMap.values (appointments st))
             /\ exists t, appointmentTime a = Some t /\ start <= t < next)
   /\ (start < next ->
       forall a,
         In a (JsMap.values (appointments st)) ->
         appointmentTime a = Some start ->
         In a (getAppointmentsByDate (Some t0) st))
   /\ (forall a,
         appointmentTime a = Some next ->
         ~ In a (getAppointmentsByDate (Some t0) st)))
  /\ (~ (in_range start /\ in_range next) -> getAppointmentsByDate (Some t0) st = [])
  /\ (LocalTime start = D * msPerDay ->
      next = localMidnight (D + 1)
      /\ next = start + msPerDay
                + (LocalTZA (D * msPerDay) false - LocalTZA ((D + 1) * msPerDay) false))
  /\ (forall off,
        fixed_offset off ->
        LocalTime start = D * msPerDay
        /\ next = start + msPerDay
        /\ start <= t0 < next
        /\ (in_range start -> in_range next -> one_day_window st t0))
  /\ (forall u dateParam,
        Date_parse dateParam = Some t0 ->
        in_range t0 ->
        Routes.get_appointments_date (Some u) dateParam st
        = (mkResponse 200 (JArr (getAppointmentsByDate (Some t0) st)), st)).
Proof.
  intros D start next.
  assert (Hiff : in_range start -> in_range next ->
             forall a,
               In a (getAppointmentsByDate (Some t0) st)
               <-> In a (JsMap.values (appointments st))
                   /\ exists t, appointmentTime a = Some t /\ start <= t < next).
  { intros Hstart Hnext a.
    rewrite (getAppointmentsByDate_window st t0 Hstart Hnext).
    rewrite List.filter_In, in_window_spec. reflexivity. }
  split; [|split; [|split; [|split]]].
  - intros Hstart Hnext.
    split; [exact (getAppointmentsByDate_window st t0 Hstart Hnext)|].
    split; [exact (Hiff Hstart Hnext)|].
    split.
    + intros Hlt a Hin Ht. apply (Hiff Hstart Hnext). split; [exact Hin|].
      exists start. split; [exact Ht | lia].
    + intros a Ht Hin. apply (Hiff Hstart Hnext) in Hin.
      destruct Hin as (_ & t & Ht' & Hb). rewrite Ht in Ht'.
      injection Ht' as <-. lia.
  - exact (getAppointmentsByDate_clipped st t0).
  - intros Hmid.
    assert (Hnext : next = localMidnight (D + 1)) by exact (dayAfter_localMidnight D Hmid).
    split; [exact Hnext|].
    rewrite Hnext. unfold start, localMidnight, UTC. lia.
  - intros off Hoff.
    assert (Hnext : next = start + msPerDay) by exact (fixed_offset_dayAfter off start Hoff).
    pose proof (fixed_offset_bounds off t0 Hoff) as Hb.
    split; [exact (fixed_offset_midnight off D Hoff)|].
    split; [exact Hnext|]. split; [fold D in Hb; fold start in Hb; lia|].
    intros Hrs Hrn a. rewrite (Hiff Hrs Hrn a).
    fold D. fold start. rewrite <- Hnext. reflexivity.
  - intros u dateParam Hparse Hrange.
    unfold Routes.get_appointments_date, ensureAuthenticated. simpl.
    now rewrite Hparse, (TimeClip_in_range t0 Hrange).
Qed.

End ByDate.

(** ** The seed state *)

(** C1, as the code has it.  Right after construction, [GET /api/beds]
    lists exactly 20 beds with ids 1 to 20, each [available] with a null
    [patientId]; the wards cycle icu, pediatric, maternity, general (bed
    [i] is in [wards[i mod 4]]), and the bed numbers are the ward's
    capital initial and the sequence number padded to two digits: I01,
    P02, M03, G04, I05, ... *)
Theorem seed_beds (u : caller) :
  Routes.get_beds (Some u) newMemStorage
  = (mkResponse 200 (JArr (getAllBeds newMemStorage)), newMemStorage)
  /\ length (getAllBeds newMemStorage) = 20%nat
  /\ field_list "id" (getAllBeds newMemStorage) = map (fun i => Some (VNum i)) (seqZ 1 20)
  /\ field_list "status" (getAllBeds newMemStorage) = repeat (Some (VStr "available")) 20
  /\ field_list "patientId" (getAllBeds newMemStorage) = repeat (Some VNull) 20
  /\ field_list "ward" (getAllBeds newMemStorage) = strings seeded_wards
  /\ field_list "bedNumber" (getAllBeds newMemStorage) = strings seeded_bedNumbers
  /\ getAllBeds newMemStorage
     = map (fun i => <[ "id" := VNum i ]> (seedBed i)) (seqZ 1 20).
Proof.
  split; [reflexivity|].
  split; [reflexivity|].
  split; [vm_compute; reflexivity|].
  split; [vm_compute; reflexivity|].
  split; [vm_compute; reflexivity|].
  split; [vm_compute; reflexivity|].
  split; [vm_compute; reflexivity | reflexivity].
Qed.

(** The first bed is I01 in the icu ward, not G01 in the general ward:
    neither the wards nor the bed numbers are the claimed ones. *)
Lemma seed_beds_do_not_start_at_general :
  field_list "ward" (getAllBeds newMemStorage) <> strings claimed_wards
  /\ field_list "bedNumber" (getAllBeds newMemStorage) <> strings claimed_bedNumbers
  /\ (exists first rest,
        getAllBeds newMemStorage = first :: rest
        /\ first !! "id" = Some (VNum 1)
        /\ first !! "ward" = Some (VStr "icu")
        /\ first !! "bedNumber" = Some (VStr "I01")).
Proof.
  split; [|split].
  - vm_compute. discriminate.
  - vm_compute. discriminate.
  - eexists. eexists. split; [reflexivity|].
    repeat split; vm_compute; reflexivity.
Qed.

(** * Further properties of the store *)

(** ** More on the insertion-ordered map *)

Module JsMapMore.
Import JsMap.

Lemma keys_set_Some (k : Z) (v r : obj) (m : t) :
  get k m = Some r -> keys (set k v m) = keys m.
Proof.
  unfold keys. induction m as [|[k0 v0] m IH]; simpl; [discriminate|].
  destruct (Z.eqb k0 k) eqn:E; simpl.
  - apply Z.eqb_eq in E. now subst.
  - intros Hg. f_equal. now apply IH.
Qed.

Lemma keys_set_None (k : Z) (v : obj) (m : t) :
  get k m = None -> keys (set k v m) = keys m ++ [k].
Proof.
  intros Hg. rewrite (JsMapFacts.set_fresh _ _ _ Hg).
  unfold keys. now rewrite List.map_app.
Qed.

Lemma delete_fst (k : Z) (m : t) :
  fst (delete k m) = match get k m with Some _ => true | None => false end.
Proof.
  induction m as [|[k0 v0] m IH]; simpl; [reflexivity|].
  destruct (Z.eqb k0 k); [reflexivity|].
  destruct (delete k m) as [b m']. exact IH.
Qed.

Lemma delete_absent (k : Z) (m : t) : get k m = None -> delete k m = (false, m).
Proof.
  induction m as [|[k0 v0] m IH]; simpl; [reflexivity|].
  destruct (Z.eqb k0 k); [discriminate|].
  intros Hg. now rewrite (IH Hg).
Qed.

Lemma delete_keys_incl (k k' : Z) (m : t) :
  In k' (keys (snd (delete k m))) -> In k' (keys m).
Proof.
  unfold keys. induction m as [|[k0 v0] m IH]; simpl; [tauto|].
  destruct (Z.eqb k0 k); simpl; [tauto|].
  destruct (delete k m) as [b m']. simpl in *. tauto.
Qed.

Lemma delete_NoDup (k : Z) (m : t) :
  List.NoDup (keys m) -> List.NoDup (keys (snd (delete k m))).
Proof.
  induction m as [|[k0 v0] m IH]; simpl; [trivial|].
  intros Hnd. inversion Hnd as [|? ? Hnotin Hnd']; subst.
  destruct (Z.eqb k0 k); simpl; [exact Hnd'|].
  pose proof (delete_keys_incl k k0 m) as Hincl.
  destruct (delete k m) as [b m']. simpl in *.
  constructor; [tauto | now apply IH].
Qed.

Lemma delete_get_same (k : Z) (m : t) :
  List.NoDup (keys m) -> get k (snd (delete k m)) = None.
Proof.
  induction m as [|[k0 v0] m IH]; simpl; [reflexivity|].
  intros Hnd. inversion Hnd as [|? ? Hnotin Hnd']; subst.
  destruct (Z.eqb k0 k) eqn:E; simpl.
  - apply Z.eqb_eq in E. subst k0. now apply JsMapFacts.get_None_notin.
  - specialize (IH Hnd'). destruct (delete k m) as [b m']. simpl in *.
    now rewrite E.
Qed.

Lemma delete_get_other (k k' : Z) (m : t) :
  k' <> k -> get k' (snd (delete k m)) = get k' m.
Proof.
  intros Hne. induction m as [|[k0 v0] m IH]; simpl; [reflexivity|].
  destruct (Z.eqb k0 k) eqn:E; simpl.
  - apply Z.eqb_eq in E. subst k0.
    destruct (Z.eqb k k') eqn:E'; [apply Z.eqb_eq in E'; congruence | reflexivity].
  - destruct (delete k m) as [b m']. simpl in *. now rewrite IH.
Qed.

Lemma delete_Forall (P : Z -> Prop) (k : Z) (m : t) :
  List.Forall P (keys m) -> List.Forall P (keys (snd (delete k m))).
Proof.
  rewrite !List.Forall_forall. intros Hall k' Hin.
  apply Hall. now apply (delete_keys_incl k).
Qed.

Lemma get_dense (c k : Z) (m : t) :
  keys m = seqZ 1 (c - 1) -> (get k m <> None <-> 1 <= k < c).
Proof.
  intros Hk. rewrite JsMapFacts.get_None_notin, Hk.
  rewrite <- list_elem_of_In, elem_of_seqZ.
  split.
  - intros Hnn. destruct (decide (1 <= k < 1 + (c - 1))) as [Hb|Hb]; [lia | contradiction].
  - intros Hb Hn. apply Hn. lia.
Qed.

End JsMapMore.

(** ** The keys and the counters *)

Lemma dense_fresh (c : Z) (m : JsMap.t) : dense c m -> JsMap.get c m = None.
Proof.
  intros [Hc Hk]. apply JsMapFacts.get_None_notin. rewrite Hk.
  rewrite <- list_elem_of_In, elem_of_seqZ. lia.
Qed.

Lemma sparse_fresh (c : Z) (m : JsMap.t) : sparse c m -> JsMap.get c m = None.
Proof.
  intros (Hc & _ & Hall). apply JsMapFacts.get_None_notin. intros Hin.
  rewrite List.Forall_forall in Hall. specialize (Hall _ Hin). lia.
Qed.

Lemma dense_create (c : Z) (v : obj) (m : JsMap.t) :
  dense c m -> dense (c + 1) (JsMap.set c v m).
Proof.
  intros Hd. pose proof (dense_fresh c m Hd) as Hf. destruct Hd as [Hc Hk].
  split; [lia|].
  rewrite (JsMapMore.keys_set_None _ _ _ Hf), Hk.
  replace (c + 1 - 1) with ((c - 1) + 1) by lia.
  rewrite seqZ_app by lia. f_equal.
  replace (1 + (c - 1)) with c by lia. reflexivity.
Qed.

Lemma sparse_create (c : Z) (v : obj) (m : JsMap.t) :
  sparse c m -> sparse (c + 1) (JsMap.set c v m).
Proof.
  intros Hs. pose proof (sparse_fresh c m Hs) as Hf. destruct Hs as (Hc & Hnd & Hall).
  rewrite JsMapFacts.get_None_notin in Hf.
  split; [lia|]. rewrite JsMapMore.keys_set_None by now apply JsMapFacts.get_None_notin.
  split.
  - apply List.NoDup_app; [exact Hnd | constructor; [intros [] | constructor] |].
    intros k Hin [<-|[]]. contradiction.
  - apply List.Forall_app. split.
    + eapply List.Forall_impl; [|exact Hall]. simpl. intros k Hk. lia.
    + constructor; [lia | constructor].
Qed.

Lemma dense_update (c k : Z) (v r : obj) (m : JsMap.t) :
  JsMap.get k m = Some r -> dense c m -> dense c (JsMap.set k v m).
Proof. intros Hg [Hc Hk]. split; [exact Hc|]. now rewrite (JsMapMore.keys_set_Some _ _ _ _ Hg). Qed.

Lemma sparse_update (c k : Z) (v r : obj) (m : JsMap.t) :
  JsMap.get k m = Some r -> sparse c m -> sparse c (JsMap.set k v m).
Proof.
  intros Hg (Hc & Hnd & Hall). split; [exact Hc|].
  now rewrite (JsMapMore.keys_set_Some _ _ _ _ Hg).
Qed.

Lemma sparse_delete (c k : Z) (m : JsMap.t) :
  sparse c m -> sparse c (snd (JsMap.delete k m)).
Proof.
  intros (Hc & Hnd & Hall). split; [exact Hc|]. split.
  - now apply JsMapMore.delete_NoDup.
  - now apply JsMapMore.delete_Forall.
Qed.

Lemma newMemStorage_wf : store_wf newMemStorage.
Proof.
  unfold store_wf, dense, sparse.
  repeat split; try (vm_compute; congruence); try constructor; reflexivity.
Qed.

Section StoreInvariant.
Context `{Host}.

Lemma Reachable_store_wf (st : MemStorage) : Reachable st -> store_wf st.
Proof.
  induction 1 as [ | x st _ IH | x st _ IH | k p st _ IH | k st _ IH
                   | x st _ IH | k p st _ IH | x st _ IH | k p st _ IH
                   | x st _ IH | k p st _ IH | k st _ IH ];
    [ exact newMemStorage_wf | .. ];
    destruct IH as (Hu & Ha & (Hb & Hb21) & Hp & Hs); unfold store_wf.
  - simpl. auto using dense_create.
  - simpl. auto using sparse_create.
  - unfold updateAppointment. destruct (JsMap.get k (appointments st)) eqn:Hg; simpl;
      eauto 10 using sparse_update.
  - unfold deleteAppointment.
    pose proof (sparse_delete _ k _ Ha) as Hd.
    destruct (JsMap.delete k (appointments st)); simpl in *. auto 10.
  - simpl. split; [assumption|]. split; [assumption|].
    split; [split; [now apply dense_create | lia]|]. split; assumption.
  - unfold updateBed. destruct (JsMap.get k (beds st)) eqn:Hg; simpl;
      eauto 10 using dense_update.
  - simpl. auto 10 using dense_create.
  - unfold updatePrescription. destruct (JsMap.get k (prescriptions st)) eqn:Hg; simpl;
      eauto 10 using dense_update.
  - simpl. auto 10 using sparse_create.
  - unfold updateDoctorSchedule. destruct (JsMap.get k (doctorSchedules st)) eqn:Hg; simpl;
      eauto 10 using sparse_update.
  - unfold deleteDoctorSchedule.
    pose proof (sparse_delete _ k _ Hs) as Hd.
    destruct (JsMap.delete k (doctorSchedules st)); simpl in *. auto 10.
Qed.

End StoreInvariant.

(** ** Deleting, creating and updating *)

Section StoreOperations.
Context `{Host}.

(** X1. [deleteAppointment] and [deleteDoctorSchedule], in a store the
    program can be in: the boolean returned says whether a record was
    stored under the key; after the call [get] of the key finds nothing
    and every other key reads as before; deleting a key that is not there
    returns false and leaves the whole store as it was. *)
Theorem delete_then_get :
  deletes getAppointment deleteAppointment
  /\ deletes getDoctorSchedule deleteDoctorSchedule.
Proof.
  split; intros st k Hreach;
    destruct (Reachable_store_wf st Hreach) as (_ & (_ & Hnda & _) & _ & _ & (_ & Hnds & _)).
  - unfold getAppointment, deleteAppointment.
    pose proof (JsMapMore.delete_fst k (appointments st)) as Hf.
    pose proof (JsMapMore.delete_get_same k (appointments st) Hnda) as Hs.
    pose proof (fun k' => JsMapMore.delete_get_other k k' (appointments st)) as Ho.
    pose proof (JsMapMore.delete_absent k (appointments st)) as Ha.
    destruct (JsMap.delete k (appointments st)) as [b m]. simpl in *.
    repeat split; try assumption.
    intros Hg. specialize (Ha Hg). injection Ha as -> ->. now destruct st.
  - unfold getDoctorSchedule, deleteDoctorSchedule.
    pose proof (JsMapMore.delete_fst k (doctorSchedules st)) as Hf.
    pose proof (JsMapMore.delete_get_same k (doctorSchedules st) Hnds) as Hs.
    pose proof (fun k' => JsMapMore.delete_get_other k k' (doctorSchedules st)) as Ho.
    pose proof (JsMapMore.delete_absent k (doctorSchedules st)) as Ha.
    destruct (JsMap.delete k (doctorSchedules st)) as [b m]. simpl in *.
    repeat split; try assumption.
    intros Hg. specialize (Ha Hg). injection Ha as -> ->. now destruct st.
Qed.


(** X3. In every store the program can be in: users, beds and
    prescriptions, which have no delete, are stored under the keys 1, 2,
    ..., counter - 1 in this order, the twenty seed beds among them;
    appointments and schedules have pairwise distinct keys, all of them
    positive and below the counter, so an id freed by a delete is not
    handed out again. *)
Theorem reachable_keys (st : MemStorage) :
  Reachable st ->
  (JsMap.keys (users st) = seqZ 1 (userIdCounter st - 1)
   /\ JsMap.keys (beds st) = seqZ 1 (bedIdCounter st - 1)
   /\ JsMap.keys (prescriptions st) = seqZ 1 (prescriptionIdCounter st - 1))
  /\ (20 <= Z.of_nat (length (getAllBeds st))
      /\ forall k, 1 <= k <= 20 -> getBed k st <> None)
  /\ (List.NoDup (JsMap.keys (appointments st))
      /\ List.Forall (fun k => 1 <= k < appointmentIdCounter st)
           (JsMap.keys (appointments st)))
  /\ (List.NoDup (JsMap.keys (doctorSchedules st))
      /\ List.Forall (fun k => 1 <= k < scheduleIdCounter st)
           (JsMap.keys (doctorSchedules st))).
Proof.
  intros Hreach.
  destruct (Reachable_store_wf st Hreach)
    as ((_ & Hu) & (_ & Ha) & ((Hcb & Hb) & Hb21) & (_ & Hp) & (_ & Hs)).
  split; [auto|]. split; [|auto].
  split.
  - unfold getAllBeds, JsMap.values.
    rewrite length_map, <- (length_map fst). fold (JsMap.keys (beds st)).
    rewrite Hb, length_seqZ. lia.
  - intros k Hk. apply (JsMapMore.get_dense (bedIdCounter st)); [exact Hb | lia].
Qed.

End StoreOperations.

(** X4. The four [update] methods on a stored record: the collection
    keeps its keys in their order (the updated record keeps its place in
    every listing), and every other key reads as before. *)
Theorem update_in_place :
  updates_in_place appointments getAppointment updateAppointment
  /\ updates_in_place beds getBed updateBed
  /\ updates_in_place prescriptions getPrescription updatePrescription
  /\ updates_in_place doctorSchedules getDoctorSchedule updateDoctorSchedule.
Proof.
  split; [|split; [|split]]; intros st k p r Hg;
    unfold getAppointment, updateAppointment, getBed, updateBed,
      getPrescription, updatePrescription, getDoctorSchedule, updateDoctorSchedule in *;
    rewrite Hg; simpl;
    (split; [ eapply JsMapMore.keys_set_Some; eassumption
            | intros k' Hne; apply JsMapFacts.get_set_ne; congruence ]).
Qed.

(** ** Lookups by a field *)

Lemma find_snoc {A : Type} (f : A -> bool) (l : list A) (x : A) :
  List.find f (l ++ [x])
  = match List.find f l with
    | Some y => Some y
    | None => if f x then Some x else None
    end.
Proof.
  induction l as [|a l IH]; simpl; [reflexivity|].
  destruct (f a); [reflexivity | exact IH].
Qed.

Section FirstMatch.
Context `{Host}.

(** X5. [getUserByUsername] and [getBedByNumber] return the first match
    in store order, and [createUser] and [createBed] check nothing: in a
    store the program can be in, after a user with username [name] is
    created, [getUserByUsername(name)] still returns an older user of that
    name if there was one, and the new user otherwise; likewise for beds
    and their bed number. *)
Theorem lookup_after_create (name : string) (x : obj) (st : MemStorage) :
  Reachable st ->
  (x !! "username" = Some (VStr name) ->
   first_match_after_create getUserByUsername createUser name x st)
  /\ (x !! "bedNumber" = Some (VStr name) ->
      first_match_after_create getBedByNumber createBed name x st).
Proof.
  intros Hreach.
  destruct (Reachable_store_wf st Hreach) as (Hu & _ & (Hb & _) & _).
  split; intros Hx; unfold first_match_after_create.
  - unfold getUserByUsername. simpl.
    rewrite (JsMapFacts.set_fresh _ _ _ (dense_fresh _ _ Hu)).
    unfold JsMap.values. rewrite List.map_app. cbn [List.map]. rewrite find_snoc.
    cbn [snd]. rewrite lookup_insert_ne by discriminate. rewrite Hx.
    cbn [strict_eq]. now rewrite String.eqb_refl.
  - unfold getBedByNumber. simpl.
    rewrite (JsMapFacts.set_fresh _ _ _ (dense_fresh _ _ Hb)).
    unfold JsMap.values. rewrite List.map_app. cbn [List.map]. rewrite find_snoc.
    cbn [snd]. rewrite lookup_insert_ne by discriminate. rewrite Hx.
    cbn [strict_eq]. now rewrite String.eqb_refl.
Qed.

End FirstMatch.

(** ** More on the appointments of a day *)

Section MoreByDate.
Context `{Host}.

(** X6. An invalid date selects nothing: [getAppointmentsByDate] of an
    invalid [Date] returns the empty list, an appointment whose
    [appointmentDate] does not make a valid [Date] is returned for no
    date at all, and [GET /api/appointments/date/:date] with a parameter
    that [Date] cannot parse answers 400 and leaves the store as it
    was. *)
Theorem invalid_dates_select_nothing (st : MemStorage) :
  getAppointmentsByDate None st = []
  /\ (forall d a, In a (getAppointmentsByDate d st) -> appointmentTime a <> None)
  /\ (forall u dateParam,
        Date_parse dateParam = None ->
        Routes.get_appointments_date (Some u) dateParam st
        = (mkResponse 400 (JMessage "Invalid date format"), st)).
Proof.
  split; [|split].
  - unfold getAppointmentsByDate. apply filter_none. intros a. simpl.
    now destruct (newDate (a !! "appointmentDate")).
  - intros d a Hin. unfold getAppointmentsByDate in Hin.
    apply List.filter_In in Hin. destruct Hin as [_ Hb].
    unfold appointmentTime. destruct (newDate (a !! "appointmentDate")); [discriminate|].
    simpl in Hb. discriminate.
  - intros u dateParam Hparse.
    unfold Routes.get_appointments_date, ensureAuthenticated. simpl.
    now rewrite Hparse.
Qed.

(** X7. [getAppointmentsByDate] depends on the local day of its argument
    only: on every host, two dates on the same local day select the same
    appointments.  On a host whose offset from UTC never changes, two
    dates on different local days select no appointment in common, and a
    stored appointment is selected by its own [appointmentDate] when the
    start of its local day and of the next are in the range of [Date]. *)
Theorem appointments_by_local_day (st : MemStorage) (t1 t2 : Z) :
  (Day (LocalTime t1) = Day (LocalTime t2) ->
   getAppointmentsByDate (Some t1) st = getAppointmentsByDate (Some t2) st)
  /\ (forall off,
        fixed_offset off ->
        Day (LocalTime t1) <> Day (LocalTime t2) ->
        forall a, In a (getAppointmentsByDate (Some t1) st) ->
                  ~ In a (getAppointmentsByDate (Some t2) st))
  /\ (forall off,
        fixed_offset off ->
        in_range (localMidnight (localDay t1)) ->
        in_range (localMidnight (localDay t1 + 1)) ->
        forall a, In a (JsMap.values (appointments st)) ->
                  appointmentTime a = Some t1 ->
                  In a (getAppointmentsByDate (Some t1) st)).
Proof.
  split; [|split].
  - intros Hday. unfold getAppointmentsByDate.
    rewrite !setHours0_localMidnight. unfold localDay. now rewrite Hday.
  - intros off Hoff Hday a H1 H2.
    assert (Hwin : forall t0,
               In a (getAppointmentsByDate (Some t0) st) ->
               exists t, appointmentTime a = Some t
                         /\ localMidnight (localDay t0) <= t
                            < localMidnight (localDay t0) + msPerDay).
    { intros t0 Hin.
      destruct (TimeClip (localMidnight (localDay t0))) as [s|] eqn:Hs;
        [destruct (TimeClip (dayAfter (localMidnight (localDay t0)))) as [n|] eqn:Hn|].
      - apply TimeClip_Some in Hs, Hn. destruct Hs as [_ Hs]. destruct Hn as [_ Hn].
        rewrite (getAppointmentsByDate_window st t0 Hs Hn) in Hin.
        apply List.filter_In in Hin. destruct Hin as [_ Hin].
        apply in_window_spec in Hin.
        now rewrite (fixed_offset_dayAfter off _ Hoff) in Hin.
      - apply TimeClip_None in Hn.
        rewrite (getAppointmentsByDate_clipped st t0) in Hin by tauto.
        destruct Hin.
      - apply TimeClip_None in Hs.
        rewrite (getAppointmentsByDate_clipped st t0) in Hin by tauto.
        destruct Hin. }
    destruct (Hwin t1 H1) as (t & Ht & Hb1). destruct (Hwin t2 H2) as (t' & Ht' & Hb2).
    rewrite Ht in Ht'. injection Ht' as <-.
    rewrite !(fixed_offset_localMidnight off _ Hoff) in Hb1.
    rewrite !(fixed_offset_localMidnight off _ Hoff) in Hb2.
    unfold localDay in Hb1, Hb2. unfold msPerDay in *. lia.
  - intros off Hoff Hs Hn a Hin Ht.
    rewrite <- (dayAfter_localMidnight _ (fixed_offset_midnight off _ Hoff)) in Hn.
    rewrite (getAppointmentsByDate_window st t1 Hs Hn).
    rewrite List.filter_In, in_window_spec.
    split; [exact Hin|]. exists t1. split; [exact Ht|].
    rewrite (fixed_offset_dayAfter off _ Hoff). exact (fixed_offset_bounds off t1 Hoff).
Qed.

End MoreByDate.

(** * Further properties of the routes *)

Lemma is_role_false (u : caller) (role : string) :
  caller_role u <> role -> is_role u role = false.
Proof. intros Hne. now apply String.eqb_neq. Qed.

Lemma strict_eq_num_false (a : option value) (n : Z) :
  a <> Some (VNum n) -> strict_eq a (Some (VNum n)) = false.
Proof.
  intros Hne. destruct (strict_eq a (Some (VNum n))) eqn:E; [|reflexivity].
  apply strict_eq_num in E. contradiction.
Qed.

Section Gates.
Context `{Host} `{Schemas}.

(** X8. Every route answers a request without an authenticated session
    with 401 and the message Unauthorized, whatever the path parameter and
    the body, and leaves the store as it was. *)
Theorem unauthenticated_is_401
    (st : MemStorage) (id : Z) (param : string) (reqBody : obj) :
  (Routes.get_users_doctors None st = (unauthorized, st)
   /\ Routes.get_users_patients None st = (unauthorized, st))
  /\ (Routes.get_appointments None st = (unauthorized, st)
      /\ Routes.get_appointments_date None param st = (unauthorized, st)
      /\ Routes.post_appointment None reqBody st = (unauthorized, st)
      /\ Routes.put_appointment None id reqBody st = (unauthorized, st)
      /\ Routes.delete_appointment None id st = (unauthorized, st))
  /\ (Routes.get_beds None st = (unauthorized, st)
      /\ Routes.get_beds_ward None param st = (unauthorized, st)
      /\ Routes.get_beds_status None param st = (unauthorized, st)
      /\ Routes.post_bed None reqBody st = (unauthorized, st)
      /\ Routes.put_bed None id reqBody st = (unauthorized, st))
  /\ (Routes.get_prescriptions None st = (unauthorized, st)
      /\ Routes.get_prescription None id st = (unauthorized, st)
      /\ Routes.post_prescription None reqBody st = (unauthorized, st)
      /\ Routes.put_prescription None id reqBody st = (unauthorized, st))
  /\ (Routes.get_schedules None st = (unauthorized, st)
      /\ Routes.get_schedules_doctor None id st = (unauthorized, st)
      /\ Routes.post_schedule None reqBody st = (unauthorized, st)
      /\ Routes.put_schedule None id reqBody st = (unauthorized, st)
      /\ Routes.delete_schedule None id st = (unauthorized, st)).
Proof. repeat split; reflexivity. Qed.

(** X9. The role check comes before everything else a gated route does:
    a caller who is neither doctor nor nurse gets 403 Forbidden from the
    bed and schedule writes, and a caller who is not a doctor gets it from
    the prescription writes, whether or not the record exists or the body
    is valid, and the store is as it was. *)
Theorem role_gate_comes_first
    (st : MemStorage) (u : caller) (id : Z) (reqBody : obj) :
  (includes ["doctor"; "nurse"] (caller_role u) = false ->
   Routes.post_bed (Some u) reqBody st = (forbidden, st)
   /\ Routes.put_bed (Some u) id reqBody st = (forbidden, st)
   /\ Routes.post_schedule (Some u) reqBody st = (forbidden, st)
   /\ Routes.put_schedule (Some u) id reqBody st = (forbidden, st)
   /\ Routes.delete_schedule (Some u) id st = (forbidden, st))
  /\ (caller_role u <> "doctor" ->
      Routes.post_prescription (Some u) reqBody st = (forbidden, st)
      /\ Routes.put_prescription (Some u) id reqBody st = (forbidden, st)).
Proof.
  split.
  - intros Hrole.
    unfold Routes.post_bed, Routes.put_bed, Routes.post_schedule, Routes.put_schedule,
      Routes.delete_schedule, ensureAuthenticated, checkRole.
    rewrite Hrole. repeat split; reflexivity.
  - intros Hrole.
    assert (Hinc : includes ["doctor"] (caller_role u) = false).
    { unfold includes. simpl. apply String.eqb_neq in Hrole. now rewrite Hrole. }
    unfold Routes.post_prescription, Routes.put_prescription, ensureAuthenticated, checkRole.
    rewrite Hinc. split; reflexivity.
Qed.

(** X10. A body that its schema rejects is answered with 400 and the
    message of the validation error, and nothing is stored: for
    [POST /api/appointments] from any authenticated caller, and for the
    bed, prescription and schedule posts from a caller who passes the role
    check. *)
Theorem rejected_body_is_400
    (st : MemStorage) (u : caller) (reqBody : obj) (message : string) :
  (insertAppointmentSchema reqBody = inr message ->
   Routes.post_appointment (Some u) reqBody st = (mkResponse 400 (JMessage message), st))
  /\ (includes ["doctor"; "nurse"] (caller_role u) = true ->
      insertBedSchema reqBody = inr message ->
      Routes.post_bed (Some u) reqBody st = (mkResponse 400 (JMessage message), st))
  /\ (caller_role u = "doctor" ->
      insertPrescriptionSchema reqBody = inr message ->
      Routes.post_prescription (Some u) reqBody st
      = (mkResponse 400 (JMessage message), st))
  /\ (includes ["doctor"; "nurse"] (caller_role u) = true ->
      insertDoctorScheduleSchema reqBody = inr message ->
      Routes.post_schedule (Some u) reqBody st = (mkResponse 400 (JMessage message), st)).
Proof.
  split; [|split; [|split]].
  - intros Hs. unfold Routes.post_appointment, ensureAuthenticated, handleValidation.
    now rewrite Hs.
  - intros Hrole Hs.
    unfold Routes.post_bed, ensureAuthenticated, checkRole, handleValidation.
    now rewrite Hrole, Hs.
  - intros Hrole Hs.
    assert (Hinc : includes ["doctor"] (caller_role u) = true) by now rewrite Hrole.
    unfold Routes.post_prescription, ensureAuthenticated, checkRole, handleValidation.
    now rewrite Hinc, Hs.
  - intros Hrole Hs.
    unfold Routes.post_schedule, ensureAuthenticated, checkRole, handleValidation.
    now rewrite Hrole, Hs.
Qed.

(** X11. The eleven GET routes write nothing: whoever calls them, with
    whatever parameter, the store after the call is the store before. *)
Theorem reads_write_nothing (user : option caller) (id : Z) (param : string) :
  writes_nothing (Routes.get_users_doctors user)
  /\ writes_nothing (Routes.get_users_patients user)
  /\ writes_nothing (Routes.get_appointments user)
  /\ writes_nothing (Routes.get_appointments_date user param)
  /\ writes_nothing (Routes.get_beds user)
  /\ writes_nothing (Routes.get_beds_ward user param)
  /\ writes_nothing (Routes.get_beds_status user param)
  /\ writes_nothing (Routes.get_prescriptions user)
  /\ writes_nothing (Routes.get_prescription user id)
  /\ writes_nothing (Routes.get_schedules user)
  /\ writes_nothing (Routes.get_schedules_doctor user id).
Proof.
  unfold writes_nothing, Routes.get_users_doctors, Routes.get_users_patients,
    Routes.get_appointments, Routes.get_appointments_date, Routes.get_beds,
    Routes.get_beds_ward, Routes.get_beds_status, Routes.get_prescriptions,
    Routes.get_prescription, Routes.get_schedules, Routes.get_schedules_doctor,
    ensureAuthenticated, checkRole.
  repeat split; intros st; destruct user as [u|]; try reflexivity;
    repeat match goal with
           | |- snd ((if ?b then _ else _) _) = _ => destruct b
           | |- snd (if ?b then _ else _) = _ => destruct b
           | |- snd (match ?x with _ => _ end) = _ => destruct x
           end; reflexivity.
Qed.

End Gates.

(** ** Who may read and write what *)

Lemma may_touch (u : caller) (role : string) (a : option value) :
  caller_role u <> role \/ a = Some (VNum (caller_id u)) ->
  is_role u role && negb (strict_eq a (id_of u)) = false.
Proof.
  intros [Hrole|Hown].
  - now rewrite (is_role_false u role Hrole).
  - unfold id_of. rewrite (proj2 (strict_eq_num _ _) Hown). apply Bool.andb_false_r.
Qed.

Lemma may_not_touch (u : caller) (role : string) (a : option value) :
  caller_role u = role -> a <> Some (VNum (caller_id u)) ->
  is_role u role && negb (strict_eq a (id_of u)) = true.
Proof.
  intros Hrole Hown. unfold id_of.
  now rewrite (is_role_true u role Hrole), (strict_eq_num_false _ _ Hown).
Qed.

Section Access.
Context `{Host} `{Schemas}.

Lemma deleteAppointment_found (st : MemStorage) (k : Z) (a : obj) :
  Reachable st ->
  getAppointment k st = Some a ->
  fst (deleteAppointment k st) = true
  /\ getAppointment k (snd (deleteAppointment k st)) = None
  /\ (forall k', k' <> k ->
      getAppointment k' (snd (deleteAppointment k st)) = getAppointment k' st).
Proof.
  intros Hreach Hg.
  destruct (Reachable_store_wf st Hreach) as (_ & (_ & Hnd & _) & _).
  unfold getAppointment, deleteAppointment in *.
  pose proof (JsMapMore.delete_fst k (appointments st)) as Hf. rewrite Hg in Hf.
  pose proof (JsMapMore.delete_get_same k (appointments st) Hnd) as Hs.
  pose proof (fun k' => JsMapMore.delete_get_other k k' (appointments st)) as Ho.
  destruct (JsMap.delete k (appointments st)) as [b m]. simpl in *. auto.
Qed.

Lemma deleteDoctorSchedule_found (st : MemStorage) (k : Z) (a : obj) :
  Reachable st ->
  getDoctorSchedule k st = Some a ->
  fst (deleteDoctorSchedule k st) = true
  /\ getDoctorSchedule k (snd (deleteDoctorSchedule k st)) = None
  /\ (forall k', k' <> k ->
      getDoctorSchedule k' (snd (deleteDoctorSchedule k st)) = getDoctorSchedule k' st).
Proof.
  intros Hreach Hg.
  destruct (Reachable_store_wf st Hreach) as (_ & _ & _ & _ & (_ & Hnd & _)).
  unfold getDoctorSchedule, deleteDoctorSchedule in *.
  pose proof (JsMapMore.delete_fst k (doctorSchedules st)) as Hf. rewrite Hg in Hf.
  pose proof (JsMapMore.delete_get_same k (doctorSchedules st) Hnd) as Hs.
  pose proof (fun k' => JsMapMore.delete_get_other k k' (doctorSchedules st)) as Ho.
  destruct (JsMap.delete k (doctorSchedules st)) as [b m]. simpl in *. auto.
Qed.

(** X12. [DELETE /api/appointments/:id], in a store the program can be
    in: 404 when no appointment is stored under the id; 403 and no change
    when the caller is a patient and the stored [patientId] is not the
    caller's id; otherwise 204 with an empty body, after which the
    appointment is gone, every other appointment is as before, and the
    same request is answered 404. *)
Theorem delete_appointment_route (st : MemStorage) (u : caller) (k : Z) :
  Reachable st ->
  (getAppointment k st = None ->
   Routes.delete_appointment (Some u) k st
   = (mkResponse 404 (JMessage "Appointment not found"), st))
  /\ (forall a,
        getAppointment k st = Some a ->
        caller_role u = "patient" ->
        a !! "patientId" <> Some (VNum (caller_id u)) ->
        Routes.delete_appointment (Some u) k st
        = (mkResponse 403 (JMessage "You can only delete your own appointments"), st))
  /\ (forall a,
        getAppointment k st = Some a ->
        caller_role u <> "patient" \/ a !! "patientId" = Some (VNum (caller_id u)) ->
        exists st',
          Routes.delete_appointment (Some u) k st = (mkResponse 204 JEnd, st')
          /\ getAppointment k st' = None
          /\ (forall k', k' <> k -> getAppointment k' st' = getAppointment k' st)
          /\ Routes.delete_appointment (Some u) k st'
             = (mkResponse 404 (JMessage "Appointment not found"), st')).
Proof.
  intros Hreach. unfold Routes.delete_appointment, ensureAuthenticated.
  split; [|split].
  - intros Hg. now rewrite Hg.
  - intros a Hg Hrole Hown. now rewrite Hg, (may_not_touch u "patient" _ Hrole Hown).
  - intros a Hg Hmay. rewrite Hg, (may_touch u "patient" _ Hmay).
    destruct (deleteAppointment_found st k a Hreach Hg) as (Hf & Hs & Ho).
    destruct (deleteAppointment k st) as [b st']. simpl in *. subst b.
    exists st'. split; [reflexivity|]. split; [exact Hs|]. split; [exact Ho|].
    now rewrite Hs.
Qed.

(** X13. [PUT /api/appointments/:id]: 404 when no appointment is stored
    under the id; 403 and no change when the caller is a patient and the
    stored [patientId] is not the caller's id, whatever the body says;
    otherwise 200 with the stored record merged with the body, which is
    what the store then holds. *)
Theorem put_appointment_route (st : MemStorage) (u : caller) (k : Z) (reqBody : obj) :
  (getAppointment k st = None ->
   Routes.put_appointment (Some u) k reqBody st
   = (mkResponse 404 (JMessage "Appointment not found"), st))
  /\ (forall a,
        getAppointment k st = Some a ->
        caller_role u = "patient" ->
        a !! "patientId" <> Some (VNum (caller_id u)) ->
        Routes.put_appointment (Some u) k reqBody st
        = (mkResponse 403 (JMessage "You can only modify your own appointments"), st))
  /\ (forall a,
        getAppointment k st = Some a ->
        caller_role u <> "patient" \/ a !! "patientId" = Some (VNum (caller_id u)) ->
        Routes.put_appointment (Some u) k reqBody st
        = (mkResponse 200 (JObj (spread a reqBody)), snd (updateAppointment k reqBody st))
        /\ getAppointment k (snd (updateAppointment k reqBody st))
           = Some (spread a reqBody)).
Proof.
  split; [|split].
  - intros Hg. unfold Routes.put_appointment, ensureAuthenticated. now rewrite Hg.
  - intros a Hg Hrole Hown. unfold Routes.put_appointment, ensureAuthenticated.
    now rewrite Hg, (may_not_touch u "patient" _ Hrole Hown).
  - intros a Hg Hmay. split.
    + apply (put_appointment_allowed st k a); [exact Hg | now apply may_touch].
    + apply (updateAppointment_found st k reqBody a Hg).
Qed.

(** X14. [GET /api/prescriptions/:id]: 404 when no prescription is stored
    under the id; 403 when the caller is a patient and the stored
    [patientId] is not the caller's id; otherwise 200 with the stored
    record.  The store is not changed. *)
Theorem get_prescription_route (st : MemStorage) (u : caller) (k : Z) :
  (getPrescription k st = None ->
   Routes.get_prescription (Some u) k st
   = (mkResponse 404 (JMessage "Prescription not found"), st))
  /\ (forall p,
        getPrescription k st = Some p ->
        caller_role u = "patient" ->
        p !! "patientId" <> Some (VNum (caller_id u)) ->
        Routes.get_prescription (Some u) k st
        = (mkResponse 403 (JMessage "You can only view your own prescriptions"), st))
  /\ (forall p,
        getPrescription k st = Some p ->
        caller_role u <> "patient" \/ p !! "patientId" = Some (VNum (caller_id u)) ->
        Routes.get_prescription (Some u) k st = (mkResponse 200 (JObj p), st)).
Proof.
  unfold Routes.get_prescription, ensureAuthenticated.
  split; [|split].
  - intros Hg. now rewrite Hg.
  - intros p Hg Hrole Hown. now rewrite Hg, (may_not_touch u "patient" _ Hrole Hown).
  - intros p Hg Hmay. now rewrite Hg, (may_touch u "patient" _ Hmay).
Qed.

(** X15. [POST /api/prescriptions] from a doctor, with a body the schema
    accepts: if the accepted [doctorId] is not the caller's id the answer
    is 403 and nothing is stored; if it is, the answer is 201 with the
    created record, which is stored under a new id and carries the
    caller's id as [doctorId]. *)
Theorem post_prescription_as_self
    (st : MemStorage) (u : caller) (reqBody prescriptionData : obj) :
  caller_role u = "doctor" ->
  insertPrescriptionSchema reqBody = inl prescriptionData ->
  (prescriptionData !! "doctorId" <> Some (VNum (caller_id u)) ->
   Routes.post_prescription (Some u) reqBody st
   = (mkResponse 403 (JMessage "You can only create prescriptions as yourself"), st))
  /\ (prescriptionData !! "doctorId" = Some (VNum (caller_id u)) ->
      Routes.post_prescription (Some u) reqBody st
      = (mkResponse 201 (JObj (fst (createPrescription prescriptionData st))),
         snd (createPrescription prescriptionData st))
      /\ getPrescription (prescriptionIdCounter st)
           (snd (createPrescription prescriptionData st))
         = Some (fst (createPrescription prescriptionData st))
      /\ fst (createPrescription prescriptionData st) !! "doctorId"
         = Some (VNum (caller_id u))).
Proof.
  intros Hrole Hparse.
  assert (Hinc : includes ["doctor"] (caller_role u) = true) by now rewrite Hrole.
  unfold Routes.post_prescription, ensureAuthenticated, checkRole, handleValidation, id_of.
  rewrite Hinc, Hparse. split.
  - intros Hne. now rewrite (strict_eq_num_false _ _ Hne).
  - intros Heq. rewrite (proj2 (strict_eq_num _ _) Heq). simpl.
    split; [reflexivity|]. split.
    + unfold getPrescription. simpl. apply JsMapFacts.get_set_eq.
    + rewrite !lookup_insert_ne by discriminate. exact Heq.
Qed.

End Access.

(** ** Schedules: doctors and nurses *)

Section ScheduleWrites.
Context `{Host} `{Schemas}.

(** X16. A doctor writes their own schedules only: posting a schedule
    whose accepted [doctorId] is not the caller's id, and updating or
    deleting a stored schedule whose [doctorId] is not the caller's id,
    are each answered 403 with the store unchanged. *)
Theorem doctor_writes_own_schedules_only
    (st : MemStorage) (u : caller) (k : Z) (reqBody : obj) :
  caller_role u = "doctor" ->
  (forall scheduleData,
     insertDoctorScheduleSchema reqBody = inl scheduleData ->
     scheduleData !! "doctorId" <> Some (VNum (caller_id u)) ->
     Routes.post_schedule (Some u) reqBody st
     = (mkResponse 403 (JMessage "You can only create schedules for yourself"), st))
  /\ (forall schedule,
        getDoctorSchedule k st = Some schedule ->
        schedule !! "doctorId" <> Some (VNum (caller_id u)) ->
        Routes.put_schedule (Some u) k reqBody st
        = (mkResponse 403 (JMessage "You can only update your own schedules"), st)
        /\ Routes.delete_schedule (Some u) k st
           = (mkResponse 403 (JMessage "You can only delete your own schedules"), st)).
Proof.
  intros Hrole.
  assert (Hinc : includes ["doctor"; "nurse"] (caller_role u) = true) by now rewrite Hrole.
  unfold Routes.post_schedule, Routes.put_schedule, Routes.delete_schedule,
    ensureAuthenticated, checkRole, handleValidation.
  rewrite Hinc. split.
  - intros scheduleData Hparse Hne.
    now rewrite Hparse, (may_not_touch u "doctor" _ Hrole Hne).
  - intros schedule Hg Hne.
    now rewrite Hg, (may_not_touch u "doctor" _ Hrole Hne).
Qed.

(** X17. A nurse writes any doctor's schedule, and a doctor their own:
    for a caller who is a nurse, or a doctor whose id is the [doctorId]
    concerned, a post the schema accepts is answered 201 with the created
    schedule, an update of a stored schedule 200 with the merge, and, in a
    store the program can be in, a delete of a stored schedule 204, after
    which the schedule is gone. *)
Theorem schedule_writes_allowed
    (st : MemStorage) (u : caller) (k : Z) (reqBody : obj) :
  includes ["doctor"; "nurse"] (caller_role u) = true ->
  (forall scheduleData,
     insertDoctorScheduleSchema reqBody = inl scheduleData ->
     caller_role u <> "doctor"
     \/ scheduleData !! "doctorId" = Some (VNum (caller_id u)) ->
     Routes.post_schedule (Some u) reqBody st
     = (mkResponse 201 (JObj (fst (createDoctorSchedule scheduleData st))),
        snd (createDoctorSchedule scheduleData st))
     /\ getDoctorSchedule (scheduleIdCounter st)
          (snd (createDoctorSchedule scheduleData st))
        = Some (fst (createDoctorSchedule scheduleData st)))
  /\ (forall schedule,
        getDoctorSchedule k st = Some schedule ->
        caller_role u <> "doctor" \/ schedule !! "doctorId" = Some (VNum (caller_id u)) ->
        (Routes.put_schedule (Some u) k reqBody st
         = (mkResponse 200 (JObj (spread schedule reqBody)),
            snd (updateDoctorSchedule k reqBody st))
         /\ getDoctorSchedule k (snd (updateDoctorSchedule k reqBody st))
            = Some (spread schedule reqBody))
        /\ (Reachable st ->
            Routes.delete_schedule (Some u) k st
            = (mkResponse 204 JEnd, snd (deleteDoctorSchedule k st))
            /\ getDoctorSchedule k (snd (deleteDoctorSchedule k st)) = None)).
Proof.
  intros Hinc.
  unfold Routes.post_schedule, Routes.put_schedule, Routes.delete_schedule,
    ensureAuthenticated, checkRole, handleValidation.
  rewrite Hinc. split.
  - intros scheduleData Hparse Hmay.
    rewrite Hparse, (may_touch u "doctor" _ Hmay). simpl.
    split; [reflexivity|]. unfold getDoctorSchedule. simpl. apply JsMapFacts.get_set_eq.
  - intros schedule Hg Hmay. rewrite Hg, (may_touch u "doctor" _ Hmay). split.
    + destruct (updateDoctorSchedule_found st k reqBody schedule Hg) as [Hf Hs].
      split; [|exact Hs].
      destruct (updateDoctorSchedule k reqBody st) as [r st']. simpl in *. now subst r.
    + intros Hreach.
      destruct (deleteDoctorSchedule_found st k schedule Hreach Hg) as (Hf & Hs & _).
      split; [|exact Hs].
      destruct (deleteDoctorSchedule k st) as [b st']. simpl in *. now subst b.
Qed.

End ScheduleWrites.

(** ** The lists of a doctor and of the other roles *)

Lemma filter_field_exact (f : string) (n : Z) (m : JsMap.t) (r : obj) :
  In r (filter_field f (Some (VNum n)) m)
  <-> In r (JsMap.values m) /\ r !! f = Some (VNum n).
Proof. unfold filter_field. now rewrite List.filter_In, strict_eq_num. Qed.

(** X18. A doctor's lists hold exactly the doctor's records: for a caller
    with role doctor, [GET /api/appointments], [GET /api/prescriptions]
    and [GET /api/schedules] answer 200 with the stored appointments,
    prescriptions and schedules whose [doctorId] is the caller's id, all
    of them and no other, in store order. *)
Theorem doctor_lists_exactly_own_records (st : MemStorage) (u : caller) :
  caller_role u = "doctor" ->
  exists la lp ls,
    (Routes.get_appointments (Some u) st = (mkResponse 200 (JArr la), st)
     /\ Routes.get_prescriptions (Some u) st = (mkResponse 200 (JArr lp), st)
     /\ Routes.get_schedules (Some u) st = (mkResponse 200 (JArr ls), st))
    /\ (la = List.filter (fun r : obj => strict_eq (r !! "doctorId") (id_of u))
               (JsMap.values (appointments st))
        /\ forall r, In r la
                     <-> In r (JsMap.values (appointments st))
                         /\ r !! "doctorId" = Some (VNum (caller_id u)))
    /\ (lp = List.filter (fun r : obj => strict_eq (r !! "doctorId") (id_of u))
               (JsMap.values (prescriptions st))
        /\ forall r, In r lp
                     <-> In r (JsMap.values (prescriptions st))
                         /\ r !! "doctorId" = Some (VNum (caller_id u)))
    /\ (ls = List.filter (fun r : obj => strict_eq (r !! "doctorId") (id_of u))
               (JsMap.values (doctorSchedules st))
        /\ forall r, In r ls
                     <-> In r (JsMap.values (doctorSchedules st))
                         /\ r !! "doctorId" = Some (VNum (caller_id u))).
Proof.
  intros Hrole.
  exists (getAppointmentsByDoctor (id_of u) st), (getPrescriptionsByDoctor (id_of u) st),
    (getDoctorSchedulesByDoctor (id_of u) st).
  split.
  - unfold Routes.get_appointments, Routes.get_prescriptions, Routes.get_schedules,
      ensureAuthenticated, is_role.
    rewrite Hrole. simpl String.eqb. cbv iota. repeat split.
  - split; [|split]; (split; [reflexivity | intros r; apply filter_field_exact]).
Qed.

Section OtherRoles.
Context `{Host}.

(** X19. What the other roles see of appointments and prescriptions: for
    a caller who is neither patient nor doctor, [GET /api/appointments]
    and [GET /api/prescriptions] answer 200 with the concatenation, over
    the users with role doctor in store order, of the records whose
    [doctorId] is that user's id.  In a store the program can be in this
    is a rearrangement of the stored records whose [doctorId] is the id of
    some user with role doctor; a record whose [doctorId] names no such
    user is not listed. *)
Theorem other_roles_see_records_of_doctors (st : MemStorage) (u : caller) :
  Reachable st ->
  caller_role u <> "patient" ->
  caller_role u <> "doctor" ->
  let doctorIds := map (fun d : obj => d !! "id") (getUsersByRole "doctor" st) in
  let la := concat (map (fun d => getAppointmentsByDoctor d st) doctorIds) in
  let lp := concat (map (fun d => getPrescriptionsByDoctor d st) doctorIds) in
  (Routes.get_appointments (Some u) st = (mkResponse 200 (JArr la), st)
   /\ Permutation la
        (List.filter (fun r : obj => existsb (strict_eq (r !! "doctorId")) doctorIds)
           (JsMap.values (appointments st))))
  /\ (Routes.get_prescriptions (Some u) st = (mkResponse 200 (JArr lp), st)
      /\ Permutation lp
           (List.filter (fun r : obj => existsb (strict_eq (r !! "doctorId")) doctorIds)
              (JsMap.values (prescriptions st)))).
Proof.
  intros Hreach Hpat Hdoc doctorIds la lp.
  pose proof (users_wf_distinct_ids "doctor" st (Reachable_users_wf st Hreach)) as Hnd.
  fold doctorIds in Hnd.
  unfold Routes.get_appointments, Routes.get_prescriptions, ensureAuthenticated.
  rewrite (is_role_false u "patient" Hpat), (is_role_false u "doctor" Hdoc).
  unfold fan_out. rewrite !fold_left_push. fold doctorIds. simpl app.
  split; (split; [reflexivity|]).
  - subst la. unfold getAppointmentsByDoctor, filter_field.
    now apply scans_by_distinct_keys.
  - subst lp. unfold getPrescriptionsByDoctor, filter_field.
    now apply scans_by_distinct_keys.
Qed.

End OtherRoles.

(** ** What a write leaves alone *)

Section Frames.
Context `{Host} `{Schemas}.

Ltac open_handler :=
  unfold Routes.post_appointment, Routes.put_appointment, Routes.delete_appointment,
    Routes.post_bed, Routes.put_bed, Routes.post_prescription, Routes.put_prescription,
    Routes.post_schedule, Routes.put_schedule, Routes.delete_schedule,
    ensureAuthenticated, checkRole, handleValidation, catch_error, reply,
    createAppointment, updateAppointment, deleteAppointment, createBed, updateBed,
    createPrescription, updatePrescription,
    createDoctorSchedule, updateDoctorSchedule, deleteDoctorSchedule,
    getAppointment, getBed, getPrescription, getDoctorSchedule;
  cbv beta iota zeta.

Ltac frame_cases :=
  repeat match goal with
         | |- context [match ?x with _ => _ end] =>
             lazymatch x with
             | context [match _ with _ => _ end] => fail
             | _ => destruct x; cbv beta iota zeta
             end
         end.

Ltac solve_frame :=
  let st := fresh "st" in
  intros st; open_handler; frame_cases;
  unfold same_users, same_appointments, same_beds, same_prescriptions, same_schedules;
  simpl; repeat split; reflexivity.

(** X20. Each writing route touches one collection: whatever the caller,
    the id and the body, the appointment routes leave users, beds,
    prescriptions and schedules with their counters as they were, and so
    do the bed, prescription and schedule routes for the collections
    other than their own.  No route writes the users. *)
Theorem writes_touch_one_collection (user : option caller) (id : Z) (reqBody : obj) :
  (writes_appointments_only (Routes.post_appointment user reqBody)
   /\ writes_appointments_only (Routes.put_appointment user id reqBody)
   /\ writes_appointments_only (Routes.delete_appointment user id))
  /\ (writes_beds_only (Routes.post_bed user reqBody)
      /\ writes_beds_only (Routes.put_bed user id reqBody))
  /\ (writes_prescriptions_only (Routes.post_prescription user reqBody)
      /\ writes_prescriptions_only (Routes.put_prescription user id reqBody))
  /\ (writes_schedules_only (Routes.post_schedule user reqBody)
      /\ writes_schedules_only (Routes.put_schedule user id reqBody)
      /\ writes_schedules_only (Routes.delete_schedule user id)).
Proof.
  split; [split; [|split]|split; [split|split; [split|split; [|split]]]]; solve_frame.
Qed.

Lemma filter_field_snoc (f : string) (v : option value) (m : JsMap.t) (k : Z) (r : obj) :
  strict_eq (r !! f) v = true ->
  filter_field f v (m ++ [(k, r)]) = filter_field f v m ++ [r].
Proof.
  intros Hr. unfold filter_field, JsMap.values.
  rewrite List.map_app, List.filter_app. simpl. now rewrite Hr.
Qed.

(** X21. A patient's post shows in the patient's list: in a store the
    program can be in, after a caller with role patient posts an
    appointment that the schema accepts with the caller's id as
    [patientId], [GET /api/appointments] for the same caller answers with
    the list it answered before, followed by the created appointment. *)
Theorem post_then_list_appointments
    (st : MemStorage) (u : caller) (reqBody appointmentData : obj) :
  Reachable st ->
  caller_role u = "patient" ->
  insertAppointmentSchema reqBody = inl appointmentData ->
  reqBody !! "patientId" = Some (VNum (caller_id u)) ->
  exists created st' before,
    Routes.post_appointment (Some u) reqBody st = (mkResponse 201 (JObj created), st')
    /\ Routes.get_appointments (Some u) st = (mkResponse 200 (JArr before), st)
    /\ Routes.get_appointments (Some u) st'
       = (mkResponse 200 (JArr (before ++ [created])), st').
Proof.
  intros Hreach Hrole Hparse Hpid.
  rewrite <- (insertAppointmentSchema_patientId reqBody appointmentData Hparse) in Hpid.
  destruct (Reachable_store_wf st Hreach) as (_ & Ha & _).
  exists (fst (createAppointment appointmentData st)),
    (snd (createAppointment appointmentData st)),
    (getAppointmentsByPatient (id_of u) st).
  unfold Routes.post_appointment, Routes.get_appointments, ensureAuthenticated,
    handleValidation.
  rewrite Hparse, (is_role_true u "patient" Hrole).
  unfold id_of at 1. rewrite (proj2 (strict_eq_num _ _) Hpid).
  split; [reflexivity|]. split; [reflexivity|].
  unfold reply. f_equal. f_equal. f_equal.
  unfold getAppointmentsByPatient. simpl.
  rewrite (JsMapFacts.set_fresh _ _ _ (sparse_fresh _ _ Ha)).
  apply filter_field_snoc. unfold id_of.
  rewrite !lookup_insert_ne by discriminate. now apply strict_eq_num.
Qed.

End Frames.

(** * The scenario, worked *)

Module ScenarioFacts.
Import Scenario.

Lemma hospital_Reachable : Reachable hospital.
Proof.
  unfold hospital, withUsers.
  apply R_createPrescription, R_createAppointment, R_createAppointment,
    R_createDoctorSchedule, R_createDoctorSchedule,
    R_createUser, R_createUser, R_createUser, R_createUser, R_new.
Qed.

(** C2: the nurse is not shown the schedule whose [doctorId] is 7. *)
Lemma nurse_misses_schedule_of_no_doctor :
  field_list "id" (JsMap.values (doctorSchedules hospital)) = [Some (VNum 1); Some (VNum 2)]
  /\ (exists l,
        Routes.get_schedules (Some nurse1) hospital = (mkResponse 200 (JArr l), hospital)
        /\ field_list "id" l = [Some (VNum 1)])
  /\ ~ omits_no_schedule (fst (Routes.get_schedules (Some nurse1) hospital)) hospital.
Proof.
  split; [vm_compute; reflexivity|].
  split; [eexists; split; [reflexivity | vm_compute; reflexivity]|].
  intros (l & Hl & Hall).
  injection Hl as <-.
  specialize (Hall (<[ "id" := VNum 2 ]> (newSchedule 7))).
  assert (Hin : In (<[ "id" := VNum 2 ]> (newSchedule 7))
                  (JsMap.values (doctorSchedules hospital))) by (right; left; reflexivity).
  apply Hall in Hin.
  apply (List.in_map (fun o : obj => o !! "id")) in Hin.
  vm_compute in Hin. destruct Hin as [Hin|[]]. discriminate.
Qed.

(** The route accepts that schedule from the nurse: no handler checks
    that a [doctorId] names a user. *)
Lemma nurse_may_create_schedule_of_no_doctor :
  exists created st',
    Routes.post_schedule (Some nurse1) (newSchedule 7)
      (snd (createDoctorSchedule (newSchedule 3) withUsers))
    = (mkResponse 201 (JObj created), st')
    /\ created !! "id" = Some (VNum 2)
    /\ created !! "doctorId" = Some (VNum 7)
    /\ getUser 7 st' = None.
Proof.
  eexists. eexists. split; [reflexivity|].
  repeat split; vm_compute; reflexivity.
Qed.

Lemma nurse_schedules_witness :
  Reachable hospital
  /\ caller_role nurse1 <> "doctor"
  /\ exists l,
       Routes.get_schedules (Some nurse1) hospital = (mkResponse 200 (JArr l), hospital)
       /\ Permutation l
            (List.filter
               (fun s : obj =>
                  existsb (strict_eq (s !! "doctorId"))
                    (map (fun d : obj => d !! "id") (getUsersByRole "doctor" hospital)))
               (JsMap.values (doctorSchedules hospital))).
Proof.
  split; [exact hospital_Reachable|].
  split; [discriminate|].
  eexists.
  exact (nurse_schedules_concat_per_doctor hospital nurse1 hospital_Reachable
           ltac:(discriminate)).
Defined.

(** C3: doctor 4 may not update the prescription of doctor 3, whatever
    [doctorId] the body carries; doctor 3 may. *)
Lemma put_prescription_witness :
  exists p,
    getPrescription 1 hospital = Some p
    /\ caller_role doctor4 = "doctor"
    /\ caller_role doctor3 = "doctor"
    /\ p !! "doctorId" <> Some (VNum (caller_id doctor4))
    /\ p !! "doctorId" = Some (VNum (caller_id doctor3))
    /\ Routes.put_prescription (Some doctor4) 1 {[ "doctorId" := VNum 4 ]} hospital
       = (mkResponse 403 (JMessage "You can only modify your own prescriptions"), hospital)
    /\ Routes.put_prescription (Some doctor3) 1 {[ "doctorId" := VNum 4 ]} hospital
       = (mkResponse 200 (JObj (spread p {[ "doctorId" := VNum 4 ]})),
          snd (updatePrescription 1 {[ "doctorId" := VNum 4 ]} hospital)).
Proof.
  eexists.
  split; [reflexivity|].
  split; [reflexivity|].
  split; [reflexivity|].
  split; [vm_compute; discriminate|].
  split; [vm_compute; reflexivity|].
  split.
  - apply (proj1 (proj2 (put_prescription_checks_stored_owner
                           hospital 1 _ doctor4 _ eq_refl eq_refl))).
    vm_compute. discriminate.
  - apply (proj1 (put_prescription_checks_stored_owner
                    hospital 1 _ doctor3 _ eq_refl eq_refl)).
    vm_compute. reflexivity.
Defined.

(** C4: patient 2 may not book for patient 3, and may book for
    themselves. *)
Lemma post_appointment_witness :
  exists other own,
    caller_role patient2 = "patient"
    /\ insertAppointmentSchema (newAppointment 3 march15) = inl other
    /\ insertAppointmentSchema (newAppointment 2 march15) = inl own
    /\ newAppointment 3 march15 !! "patientId" <> Some (VNum (caller_id patient2))
    /\ newAppointment 2 march15 !! "patientId" = Some (VNum (caller_id patient2))
    /\ Routes.post_appointment (Some patient2) (newAppointment 3 march15) hospital
       = (mkResponse 403 (JMessage "You can only create appointments for yourself"),
          hospital)
    /\ Routes.post_appointment (Some patient2) (newAppointment 2 march15) hospital
       = (mkResponse 201 (JObj (fst (createAppointment own hospital))),
          snd (createAppointment own hospital)).
Proof.
  eexists. eexists.
  split; [reflexivity|].
  split; [reflexivity|].
  split; [reflexivity|].
  split; [vm_compute; discriminate|].
  split; [vm_compute; reflexivity|].
  split.
  - refine (proj1 (post_appointment_by_patient hospital patient2
                     (newAppointment 3 march15) _ eq_refl _) _).
    + reflexivity.
    + vm_compute. discriminate.
  - refine (proj1 (proj2 (post_appointment_by_patient hospital patient2
                            (newAppointment 2 march15) _ eq_refl _) _)).
    + reflexivity.
    + vm_compute. reflexivity.
Defined.

(** C5: patient 2 lists their two appointments and their prescription. *)
Lemma patient_lists_witness :
  caller_role patient2 = "patient"
  /\ length (getAppointmentsByPatient (id_of patient2) hospital) = 2%nat
  /\ exists la lp,
       Routes.get_appointments (Some patient2) hospital = (mkResponse 200 (JArr la), hospital)
       /\ List.Forall (fun r : obj => r !! "patientId" = Some (VNum (caller_id patient2))) la
       /\ Routes.get_prescriptions (Some patient2) hospital
          = (mkResponse 200 (JArr lp), hospital)
       /\ List.Forall (fun r : obj => r !! "patientId" = Some (VNum (caller_id patient2))) lp.
Proof.
  split; [reflexivity|].
  split; [vm_compute; reflexivity|].
  exact (patient_lists_only_own_records hospital patient2 eq_refl).
Defined.

(** C7: an appointment created in the scenario store is read back. *)
Lemma create_then_get_witness :
  date_field "appointmentDate" (newAppointment 2 march15)
  /\ exists n,
       fst (createAppointment (newAppointment 2 march15) hospital) !! "id" = Some (VNum n)
       /\ getAppointment n (snd (createAppointment (newAppointment 2 march15) hospital))
          = Some (fst (createAppointment (newAppointment 2 march15) hospital))
       /\ fst (createAppointment (newAppointment 2 march15) hospital)
          = spread (newAppointment 2 march15) {[ "id" := VNum n ]}.
Proof.
  split.
  - exists (Some march15). vm_compute. reflexivity.
  - apply (proj1 (proj2 create_then_get)).
    exists (Some march15). vm_compute. reflexivity.
Defined.

(** C9: a patient who asks for the patients is refused, so the response
    does not list the stored patient. *)
Lemma patients_list_refused_to_patient :
  field_list "username" (getUsersByRole "patient" hospital) = [Some (VStr "paul")]
  /\ Routes.get_users_patients (Some patient2) hospital
     = (mkResponse 403 (JMessage "Forbidden"), hospital)
  /\ ~ lists_without_password "patient"
         (fst (Routes.get_users_patients (Some patient2) hospital)) hospital.
Proof.
  split; [vm_compute; reflexivity|].
  split; [reflexivity|].
  intros (l & Hl & _).
  change (mkResponse 403 (JMessage "Forbidden") = mkResponse 200 (JArr l)) in Hl.
  discriminate Hl.
Qed.

Lemma user_lists_witness :
  includes ["doctor"; "nurse"] (caller_role nurse1) = true
  /\ includes ["doctor"; "nurse"] (caller_role patient2) = false
  /\ lists_without_password "patient"
       (fst (Routes.get_users_patients (Some nurse1) hospital)) hospital
  /\ Routes.get_users_patients (Some patient2) hospital
     = (mkResponse 403 (JMessage "Forbidden"), hospital).
Proof.
  split; [reflexivity|].
  split; [reflexivity|].
  split.
  - apply (proj1 (proj2 (user_lists_strip_password hospital nurse1))). reflexivity.
  - apply (proj2 (proj2 (user_lists_strip_password hospital patient2))). reflexivity.
Defined.

(** C10: occupying bed 1 keeps its id; a body with [id] 99 replaces it. *)
Lemma update_id_witness :
  exists r,
    getBed 1 hospital = Some r
    /\ r !! "id" = Some (VNum 1)
    /\ ({[ "status" := VStr "occupied" ]} : obj) !! "id" = None
    /\ includes ["doctor"; "nurse"] (caller_role nurse1) = true
    /\ (exists r',
          fst (updateBed 1 {[ "status" := VStr "occupied" ]} hospital) = Some r'
          /\ getBed 1 (snd (updateBed 1 {[ "status" := VStr "occupied" ]} hospital)) = Some r'
          /\ r' !! "id" = Some (VNum 1))
    /\ (exists r' st',
          Routes.put_bed (Some nurse1) 1 {[ "id" := VNum 99 ]} hospital
          = (mkResponse 200 (JObj r'), st')
          /\ getBed 1 st' = Some r'
          /\ r' !! "id" = Some (VNum 99)
          /\ r' !! "id" <> Some (VNum 1)).
Proof.
  eexists.
  split; [reflexivity|].
  split; [vm_compute; reflexivity|].
  split; [vm_compute; reflexivity|].
  split; [reflexivity|].
  split.
  - apply (proj1 (proj2 (proj1 update_keeps_id_unless_payload_has_id))
             hospital 1 _ _ eq_refl).
    + vm_compute. reflexivity.
    + vm_compute. reflexivity.
  - apply (proj2 (proj2 update_keeps_id_unless_payload_has_id)
             hospital 1 _ _ nurse1 (VNum 99) eq_refl eq_refl).
    + vm_compute. reflexivity.
    + discriminate.
Defined.

End ScenarioFacts.

(** * The day on which the clocks change *)

Module ClockChangeFacts.
Import ClockChange.

(** C8: in New York, noon of 10 March 2024 is on a day that starts at
    05:00 UTC and ends 23 hours later, at the next midnight; of the three
    appointments, the one at 15:00 UTC is listed for that day. *)
Lemma appointments_of_the_day_witness :
  localMidnight (localDay noon) = march10 + 18000000
  /\ dayAfter (localMidnight (localDay noon)) = march10 + 18000000 + 82800000
  /\ dayAfter (localMidnight (localDay noon)) = localMidnight (localDay noon + 1)
  /\ in_range (localMidnight (localDay noon))
  /\ in_range (dayAfter (localMidnight (localDay noon)))
  /\ field_list "id" (JsMap.values (appointments clinic))
     = [Some (VNum 1); Some (VNum 2); Some (VNum 3)]
  /\ getAppointmentsByDate (Some noon) clinic
     = List.filter
         (in_window (localMidnight (localDay noon)) (dayAfter (localMidnight (localDay noon))))
         (JsMap.values (appointments clinic))
  /\ field_list "id" (getAppointmentsByDate (Some noon) clinic) = [Some (VNum 2)]
  /\ Date_parse "2024-03-10T12:00:00" = Some noon
  /\ Routes.get_appointments_date (Some Scenario.nurse1) "2024-03-10T12:00:00" clinic
     = (mkResponse 200 (JArr (getAppointmentsByDate (Some noon) clinic)), clinic).
Proof.
  assert (Hstart : in_range (localMidnight (localDay noon)))
    by (vm_compute; split; discriminate).
  assert (Hnext : in_range (dayAfter (localMidnight (localDay noon))))
    by (vm_compute; split; discriminate).
  pose proof (appointments_of_the_day clinic noon) as (Hwindow & _ & Hmidnight & _ & Hroute).
  split; [vm_compute; reflexivity|].
  split; [vm_compute; reflexivity|].
  split; [apply Hmidnight; vm_compute; reflexivity|].
  split; [exact Hstart|].
  split; [exact Hnext|].
  split; [vm_compute; reflexivity|].
  split; [exact (proj1 (Hwindow Hstart Hnext))|].
  split; [vm_compute; reflexivity|].
  split; [reflexivity|].
  apply Hroute; [reflexivity | vm_compute; split; discriminate].
Defined.

(** C8: the appointment at 04:30 UTC of March 11 is stored and is less
    than 24 hours after the start of March 10 in New York, and is not
    listed for that day: the day has 23 hours. *)
Lemma day_of_clock_change_has_23_hours :
  In lateAppointment (JsMap.values (appointments clinic))
  /\ appointmentTime lateAppointment = Some half_past_midnight
  /\ localMidnight (localDay noon) <= half_past_midnight
     < localMidnight (localDay noon) + msPerDay
  /\ field_list "id" (getAppointmentsByDate (Some noon) clinic) = [Some (VNum 2)]
  /\ ~ In lateAppointment (getAppointmentsByDate (Some noon) clinic)
  /\ ~ one_day_window clinic noon.
Proof.
  assert (Hin : In lateAppointment (JsMap.values (appointments clinic))).
  { right. right. left. reflexivity. }
  assert (Ht : appointmentTime lateAppointment = Some half_past_midnight)
    by (vm_compute; reflexivity).
  assert (Hb : localMidnight (localDay noon) <= half_past_midnight
               < localMidnight (localDay noon) + msPerDay)
    by (vm_compute; split; [discriminate | reflexivity]).
  assert (Hids : field_list "id" (getAppointmentsByDate (Some noon) clinic)
                 = [Some (VNum 2)])
    by (vm_compute; reflexivity).
  assert (Hout : ~ In lateAppointment (getAppointmentsByDate (Some noon) clinic)).
  { intros Hl.
    apply (List.in_map (fun o : obj => o !! "id")) in Hl.
    change (In (lateAppointment !! "id") (field_list "id" (getAppointmentsByDate (Some noon) clinic))) in Hl.
    rewrite Hids in Hl. destruct Hl as [Hl | []]. vm_compute in Hl. discriminate Hl. }
  split; [exact Hin|]. split; [exact Ht|]. split; [exact Hb|].
  split; [exact Hids|]. split; [exact Hout|].
  intros Hclaim. apply Hout, Hclaim. split; [exact Hin|].
  exists half_past_midnight. split; [exact Ht | exact Hb].
Qed.

End ClockChangeFacts.

(** * The scenario, worked further *)

Module ScenarioMore.
Import Scenario ScenarioExtra.

(** X1: appointment 1 is stored, and gone after its deletion. *)
Lemma delete_then_get_witness :
  Reachable hospital
  /\ (exists a, getAppointment 1 hospital = Some a)
  /\ getAppointment 1 (snd (deleteAppointment 1 hospital)) = None.
Proof.
  split; [exact ScenarioFacts.hospital_Reachable|].
  split; [eexists; reflexivity|].
  exact (proj1 (proj2 (proj1 delete_then_get hospital 1 ScenarioFacts.hospital_Reachable))).
Defined.


(** X3: the four users of the scenario store have the keys 1 to 4. *)
Lemma reachable_keys_witness :
  Reachable hospital
  /\ userIdCounter hospital = 5
  /\ JsMap.keys (users hospital) = seqZ 1 (userIdCounter hospital - 1).
Proof.
  split; [exact ScenarioFacts.hospital_Reachable|].
  split; [vm_compute; reflexivity|].
  exact (proj1 (proj1 (reachable_keys hospital ScenarioFacts.hospital_Reachable))).
Defined.

(** X4: occupying bed 1 leaves the beds in their order. *)
Lemma update_in_place_witness :
  exists r,
    getBed 1 hospital = Some r
    /\ JsMap.keys (beds (snd (updateBed 1 occupied hospital))) = JsMap.keys (beds hospital).
Proof.
  eexists. split; [reflexivity|].
  exact (proj1 (proj1 (proj2 update_in_place) hospital 1 occupied _ eq_refl)).
Defined.

(** X5: a second user named paul is stored, and the first one is still
    the one found. *)
Lemma lookup_after_create_witness :
  Reachable hospital
  /\ newUser "paul" "nurse" !! "username" = Some (VStr "paul")
  /\ (exists older,
        getUserByUsername "paul" hospital = Some older /\ older !! "id" = Some (VNum 2))
  /\ first_match_after_create getUserByUsername createUser "paul"
       (newUser "paul" "nurse") hospital.
Proof.
  split; [exact ScenarioFacts.hospital_Reachable|].
  split; [vm_compute; reflexivity|].
  split; [eexists; split; [reflexivity | vm_compute; reflexivity]|].
  apply (proj1 (lookup_after_create "paul" (newUser "paul" "nurse") hospital
                  ScenarioFacts.hospital_Reachable)).
  vm_compute. reflexivity.
Defined.

(** X6: a date parameter the host cannot parse. *)
Lemma invalid_dates_witness :
  Date_parse "tomorrow" = None
  /\ Routes.get_appointments_date (Some nurse1) "tomorrow" hospital
     = (mkResponse 400 (JMessage "Invalid date format"), hospital).
Proof.
  split; [reflexivity|].
  apply (proj2 (proj2 (invalid_dates_select_nothing hospital))). reflexivity.
Defined.

(** X7: midnight and ten o'clock of March 15 select the same list. *)
Lemma appointments_by_local_day_witness :
  Day (LocalTime march15) = Day (LocalTime (march15 + 36000000))
  /\ getAppointmentsByDate (Some march15) hospital
     = getAppointmentsByDate (Some (march15 + 36000000)) hospital.
Proof.
  split; [vm_compute; reflexivity|].
  apply (proj1 (appointments_by_local_day hospital march15 (march15 + 36000000))).
  vm_compute. reflexivity.
Defined.

(** X9: a patient may not write beds. *)
Lemma role_gate_witness :
  includes ["doctor"; "nurse"] (caller_role patient2) = false
  /\ Routes.put_bed (Some patient2) 1 occupied hospital = (forbidden, hospital).
Proof.
  split; [reflexivity|].
  apply (proj1 (role_gate_comes_first hospital patient2 1 occupied)). reflexivity.
Defined.

(** X10: an empty body is not an appointment. *)
Lemma rejected_body_witness :
  insertAppointmentSchema (∅ : obj) = inr "Validation error: Required"
  /\ Routes.post_appointment (Some patient2) ∅ hospital
     = (mkResponse 400 (JMessage "Validation error: Required"), hospital).
Proof.
  split; [reflexivity|].
  apply (proj1 (rejected_body_is_400 hospital patient2 ∅ "Validation error: Required")).
  reflexivity.
Defined.

(** X12: patient 2 deletes their appointment 1; patient 5 may not. *)
Lemma delete_appointment_witness :
  Reachable hospital
  /\ exists a,
       getAppointment 1 hospital = Some a
       /\ a !! "patientId" = Some (VNum (caller_id patient2))
       /\ a !! "patientId" <> Some (VNum (caller_id patient5))
       /\ Routes.delete_appointment (Some patient5) 1 hospital
          = (mkResponse 403 (JMessage "You can only delete your own appointments"),
             hospital)
       /\ exists st',
            Routes.delete_appointment (Some patient2) 1 hospital
            = (mkResponse 204 JEnd, st')
            /\ getAppointment 1 st' = None
            /\ (forall k', k' <> 1 -> getAppointment k' st' = getAppointment k' hospital)
            /\ Routes.delete_appointment (Some patient2) 1 st'
               = (mkResponse 404 (JMessage "Appointment not found"), st').
Proof.
  split; [exact ScenarioFacts.hospital_Reachable|].
  eexists. split; [reflexivity|].
  split; [vm_compute; reflexivity|].
  split; [vm_compute; discriminate|].
  split.
  - apply (proj1 (proj2 (delete_appointment_route hospital patient5 1
                           ScenarioFacts.hospital_Reachable)) _ eq_refl eq_refl).
    vm_compute. discriminate.
  - apply (proj2 (proj2 (delete_appointment_route hospital patient2 1
                           ScenarioFacts.hospital_Reachable)) _ eq_refl).
    right. vm_compute. reflexivity.
Defined.

(** X13: patient 5 may not move the appointment of patient 2. *)
Lemma put_appointment_witness :
  exists a,
    getAppointment 1 hospital = Some a
    /\ caller_role patient5 = "patient"
    /\ a !! "patientId" <> Some (VNum (caller_id patient5))
    /\ Routes.put_appointment (Some patient5) 1 {[ "patientId" := VNum 5 ]} hospital
       = (mkResponse 403 (JMessage "You can only modify your own appointments"), hospital).
Proof.
  eexists. split; [reflexivity|]. split; [reflexivity|].
  split; [vm_compute; discriminate|].
  apply (proj1 (proj2 (put_appointment_route hospital patient5 1 {[ "patientId" := VNum 5 ]}))
           _ eq_refl eq_refl).
  vm_compute. discriminate.
Defined.

(** X14: patient 5 may not read the prescription of patient 2. *)
Lemma get_prescription_witness :
  exists p,
    getPrescription 1 hospital = Some p
    /\ caller_role patient5 = "patient"
    /\ p !! "patientId" <> Some (VNum (caller_id patient5))
    /\ Routes.get_prescription (Some patient5) 1 hospital
       = (mkResponse 403 (JMessage "You can only view your own prescriptions"), hospital)
    /\ Routes.get_prescription (Some patient2) 1 hospital = (mkResponse 200 (JObj p), hospital).
Proof.
  eexists. split; [reflexivity|]. split; [reflexivity|].
  split; [vm_compute; discriminate|].
  split.
  - apply (proj1 (proj2 (get_prescription_route hospital patient5 1)) _ eq_refl eq_refl).
    vm_compute. discriminate.
  - apply (proj2 (proj2 (get_prescription_route hospital patient2 1)) _ eq_refl).
    right. vm_compute. reflexivity.
Defined.

(** X15: doctor 4 may not prescribe as doctor 3. *)
Lemma post_prescription_witness :
  exists prescriptionData,
    caller_role doctor4 = "doctor"
    /\ insertPrescriptionSchema newPrescription = inl prescriptionData
    /\ prescriptionData !! "doctorId" <> Some (VNum (caller_id doctor4))
    /\ Routes.post_prescription (Some doctor4) newPrescription hospital
       = (mkResponse 403 (JMessage "You can only create prescriptions as yourself"),
          hospital).
Proof.
  eexists. split; [reflexivity|]. split; [reflexivity|].
  split; [vm_compute; discriminate|].
  refine (proj1 (post_prescription_as_self hospital doctor4 newPrescription _ eq_refl _) _).
  - reflexivity.
  - vm_compute. discriminate.
Defined.

(** X16: doctor 4 may not change or delete the schedule of doctor 3. *)
Lemma doctor_schedule_witness :
  exists schedule,
    caller_role doctor4 = "doctor"
    /\ getDoctorSchedule 1 hospital = Some schedule
    /\ schedule !! "doctorId" <> Some (VNum (caller_id doctor4))
    /\ Routes.put_schedule (Some doctor4) 1 {[ "doctorId" := VNum 4 ]} hospital
       = (mkResponse 403 (JMessage "You can only update your own schedules"), hospital)
    /\ Routes.delete_schedule (Some doctor4) 1 hospital
       = (mkResponse 403 (JMessage "You can only delete your own schedules"), hospital).
Proof.
  eexists. split; [reflexivity|]. split; [reflexivity|].
  split; [vm_compute; discriminate|].
  apply (proj2 (doctor_writes_own_schedules_only hospital doctor4 1
                  {[ "doctorId" := VNum 4 ]} eq_refl) _ eq_refl).
  vm_compute. discriminate.
Defined.

(** X17: the nurse moves the schedule of doctor 3 to doctor 4. *)
Lemma nurse_schedule_witness :
  exists schedule,
    includes ["doctor"; "nurse"] (caller_role nurse1) = true
    /\ getDoctorSchedule 1 hospital = Some schedule
    /\ caller_role nurse1 <> "doctor"
    /\ Routes.put_schedule (Some nurse1) 1 {[ "doctorId" := VNum 4 ]} hospital
       = (mkResponse 200 (JObj (spread schedule {[ "doctorId" := VNum 4 ]})),
          snd (updateDoctorSchedule 1 {[ "doctorId" := VNum 4 ]} hospital)).
Proof.
  eexists. split; [reflexivity|]. split; [reflexivity|].
  split; [discriminate|].
  refine (proj1 (proj1 (proj2 (schedule_writes_allowed hospital nurse1 1
                                 {[ "doctorId" := VNum 4 ]} eq_refl) _ _ _))).
  - reflexivity.
  - left. discriminate.
Defined.

(** X18: doctor 3 lists two appointments, one prescription, one
    schedule. *)
Lemma doctor_lists_witness :
  caller_role doctor3 = "doctor"
  /\ length (getAppointmentsByDoctor (id_of doctor3) hospital) = 2%nat
  /\ exists la lp ls,
       Routes.get_appointments (Some doctor3) hospital = (mkResponse 200 (JArr la), hospital)
       /\ Routes.get_prescriptions (Some doctor3) hospital
          = (mkResponse 200 (JArr lp), hospital)
       /\ Routes.get_schedules (Some doctor3) hospital = (mkResponse 200 (JArr ls), hospital).
Proof.
  split; [reflexivity|]. split; [vm_compute; reflexivity|].
  destruct (doctor_lists_exactly_own_records hospital doctor3 eq_refl)
    as (la & lp & ls & Hroutes & _).
  exists la, lp, ls. exact Hroutes.
Defined.

(** X19: the nurse sees the two appointments of doctor 3. *)
Lemma other_roles_witness :
  Reachable hospital
  /\ caller_role nurse1 <> "patient"
  /\ caller_role nurse1 <> "doctor"
  /\ exists la,
       Routes.get_appointments (Some nurse1) hospital = (mkResponse 200 (JArr la), hospital)
       /\ field_list "id" la = [Some (VNum 1); Some (VNum 2)].
Proof.
  split; [exact ScenarioFacts.hospital_Reachable|].
  split; [discriminate|]. split; [discriminate|].
  eexists. split.
  - exact (proj1 (proj1 (other_roles_see_records_of_doctors hospital nurse1
                           ScenarioFacts.hospital_Reachable
                           ltac:(discriminate) ltac:(discriminate)))).
  - vm_compute. reflexivity.
Defined.

(** X21: patient 2 books a third appointment and finds it last in their
    list. *)
Lemma post_then_list_witness :
  Reachable hospital
  /\ caller_role patient2 = "patient"
  /\ newAppointment 2 march15 !! "patientId" = Some (VNum (caller_id patient2))
  /\ exists created st' before,
       Routes.post_appointment (Some patient2) (newAppointment 2 march15) hospital
       = (mkResponse 201 (JObj created), st')
       /\ Routes.get_appointments (Some patient2) hospital
          = (mkResponse 200 (JArr before), hospital)
       /\ Routes.get_appointments (Some patient2) st'
          = (mkResponse 200 (JArr (before ++ [created])), st').
Proof.
  split; [exact ScenarioFacts.hospital_Reachable|].
  split; [reflexivity|]. split; [vm_compute; reflexivity|].
  refine (post_then_list_appointments hospital patient2 (newAppointment 2 march15) _
            ScenarioFacts.hospital_Reachable eq_refl _ _).
  - reflexivity.
  - vm_compute. reflexivity.
Defined.

End ScenarioMore.
